(** * WinHttpWebSocketTransport: a shallow embedding

    Source: sdk/core/azure-core/src/http/winhttp/win_http_websockets.cpp

    The transport is a C++ object with one field that matters here,
    [m_socketHandle], and member functions that call into WinHTTP.  The
    embedding is a small monad threading the object, the outside world
    (WinHTTP, the clock, the cancellation flags other threads may set) and
    the list of externally visible events the call produced.  Exceptions are
    an outcome of the monad; [std::lock_guard] releases its mutex on both
    the normal and the exceptional path. *)

From Stdlib Require Import ZArith List String Bool Lia DecimalString.
From Stdlib Require Import Strings.Byte.
Import ListNotations.
Open Scope Z_scope.

(** ** Machine integers *)

Definition uint16_t := Z.
Definition DWORD := Z.
Definition HINTERNET := Z.

Definition to_DWORD (x : Z) : DWORD := x mod 4294967296.

Definition NULL : HINTERNET := 0.

(** Constants of the Windows SDK headers (winerror.h, winhttp.h). *)
Definition ERROR_INSUFFICIENT_BUFFER : DWORD := 122.
Definition WINHTTP_WEB_SOCKET_MAX_CLOSE_REASON_LENGTH : DWORD := 123.

Definition WINHTTP_WEB_SOCKET_BUFFER_TYPE := Z.
Definition WINHTTP_WEB_SOCKET_BINARY_MESSAGE_BUFFER_TYPE : WINHTTP_WEB_SOCKET_BUFFER_TYPE := 0.
Definition WINHTTP_WEB_SOCKET_BINARY_FRAGMENT_BUFFER_TYPE : WINHTTP_WEB_SOCKET_BUFFER_TYPE := 1.
Definition WINHTTP_WEB_SOCKET_UTF8_MESSAGE_BUFFER_TYPE : WINHTTP_WEB_SOCKET_BUFFER_TYPE := 2.
Definition WINHTTP_WEB_SOCKET_UTF8_FRAGMENT_BUFFER_TYPE : WINHTTP_WEB_SOCKET_BUFFER_TYPE := 3.
Definition WINHTTP_WEB_SOCKET_CLOSE_BUFFER_TYPE : WINHTTP_WEB_SOCKET_BUFFER_TYPE := 4.

(** ** Data *)

(** [enum class WebSocketFrameType], with the enumerators the source names. *)
Inductive WebSocketFrameType :=
| FrameTypeText
| FrameTypeBinary
| FrameTypeBinaryFragment
| FrameTypeTextFragment
| FrameTypeClosed.

(** The two [std::mutex] members of the transport. *)
Inductive Mutex := m_sendMutex | m_receiveMutex.

(** What a call can throw, by the dynamic type of the exception object.
    [runtime_error] is the plain [std::runtime_error] the source throws for
    an unknown frame type and for a close status mismatch (the spec's
    ProtocolError); [OperationCancelledException] is what a cancellation
    check throws (the spec's Cancelled); [TransportException] is what
    [GetErrorAndThrow] throws (the spec's TransportError). *)
Inductive Exception :=
| OperationCancelledException
| runtime_error (what : string)
| TransportException (what : string) (code : DWORD).

Inductive Outcome (A : Type) :=
| Returned (a : A)
| Thrown (e : Exception).
Arguments Returned {A} a.
Arguments Thrown {A} e.

(** Externally visible steps of a call, in the order they happen. *)
Inductive Event :=
| EvThrowIfCancelled
| EvLock (m : Mutex)
| EvUnlock (m : Mutex)
| EvWinHttpWebSocketCompleteUpgrade (request : HINTERNET)
| EvWinHttpCloseHandle (h : HINTERNET)
| EvWinHttpWebSocketClose (h : HINTERNET) (status : uint16_t)
    (reason : option string) (reasonLength : DWORD)
| EvWinHttpWebSocketQueryCloseStatus (h : HINTERNET) (reasonBufferLength : DWORD)
| EvWinHttpWebSocketSend (h : HINTERNET) (bufferType : WINHTTP_WEB_SOCKET_BUFFER_TYPE)
    (data : list byte) (dataLength : DWORD)
| EvWinHttpWebSocketReceive (h : HINTERNET) (bufferLength : DWORD).

(** A call of the blocking WinHTTP WebSocket I/O functions. *)
Definition isNativeIO (e : Event) : bool :=
  match e with
  | EvWinHttpWebSocketClose _ _ _ _
  | EvWinHttpWebSocketQueryCloseStatus _ _
  | EvWinHttpWebSocketSend _ _ _ _
  | EvWinHttpWebSocketReceive _ _ => true
  | _ => false
  end.

(** Any call that hands a handle to WinHTTP. *)
Definition touchesNative (e : Event) : bool :=
  match e with
  | EvThrowIfCancelled | EvLock _ | EvUnlock _ => false
  | _ => true
  end.

Definition isCheck (e : Event) : bool :=
  match e with EvThrowIfCancelled => true | _ => false end.

Definition isLockStep (e : Event) : bool :=
  match e with EvLock _ | EvUnlock _ => true | _ => false end.

Definition isRelease (e : Event) : bool :=
  match e with EvWinHttpCloseHandle _ => true | _ => false end.

(** Out-parameters of [WinHttpWebSocketReceive]: the bytes it stored at the
    start of the caller's buffer, the byte count and the buffer type it
    reported. *)
Record ReceiveOut := {
  recv_err : DWORD;
  recv_stored : list byte;
  recv_bytesRead : DWORD;
  recv_bufferType : WINHTTP_WEB_SOCKET_BUFFER_TYPE
}.

(** Out-parameters of [WinHttpWebSocketQueryCloseStatus]. *)
Record QueryOut := {
  query_err : DWORD;
  query_status : uint16_t;
  query_reason : list byte;
  query_reasonLength : DWORD
}.

(** ** Cancellation context *)

Definition CancelFlag := nat.

(** Modelled from the spec: [Azure::Core::Context] is declared outside the
    sources at hand.  A context is a node of a tree, with a parent, an
    optional absolute deadline and an optional cancellation flag; the flag's
    state is shared with other threads and so lives in the world. *)
Inductive Context :=
| ApplicationContext
| ChildContext (parent : Context) (deadline : option Z) (flag : option CancelFlag).

(** ** The outside world *)

(** The environment the transport runs against.  Each WinHTTP function is
    an arbitrary function of the world: nothing is assumed about what the
    peer or the network does. *)
Class Platform (World : Type) := {
  system_clock_now : World -> Z;
  cancel_requested : World -> CancelFlag -> bool;
  GetLastError : World -> DWORD;
  WinHttpWebSocketCompleteUpgrade : HINTERNET -> World -> HINTERNET * World;
  WinHttpCloseHandle : HINTERNET -> World -> World;
  WinHttpWebSocketClose :
    HINTERNET -> uint16_t -> option string -> DWORD -> World -> DWORD * World;
  WinHttpWebSocketQueryCloseStatus :
    HINTERNET -> DWORD -> World -> QueryOut * World;
  WinHttpWebSocketSend :
    HINTERNET -> WINHTTP_WEB_SOCKET_BUFFER_TYPE -> list byte -> DWORD -> World
    -> DWORD * World;
  WinHttpWebSocketReceive : HINTERNET -> DWORD -> World -> ReceiveOut * World
}.

(** ** std::vector<uint8_t> and C buffers *)

(** [std::vector<uint8_t> buffer(n)]: n value-initialised bytes. *)
Definition vector_of_size (n : nat) : list byte := repeat x00 n.

(** [buffer.resize(n)]: keeps the first n elements, appends zero bytes when
    growing. *)
Definition resize (n : nat) (v : list byte) : list byte :=
  firstn n v ++ repeat x00 (n - List.length v)%nat.

(** A native function storing [data] at the start of a buffer it was given
    with its length: bytes past the end of the buffer are not stored. *)
Definition store (buffer data : list byte) : list byte :=
  firstn (List.length buffer) data ++ skipn (List.length data) buffer.

(** [std::string] built from a [char] array: the bytes before the first NUL. *)
Fixpoint c_str_bytes (bs : list byte) : list byte :=
  match bs with
  | [] => []
  | b :: rest => if Byte.eqb b x00 then [] else b :: c_str_bytes rest
  end.

(** [std::to_string] on an unsigned value. *)
Definition to_string (n : Z) : string :=
  NilEmpty.string_of_uint (N.to_uint (Z.to_N n)).

Section Transport.

Context {World : Type} {P : Platform World}.

(** ** The monad of member functions *)

(** The object: its native socket handle, a [unique_HINTERNET]. *)
Record WinHttpWebSocketTransport := { m_socketHandle : HINTERNET }.

Record Run (A : Type) := {
  outcome : Outcome A;
  self' : WinHttpWebSocketTransport;
  world' : World;
  events : list Event
}.
Arguments outcome {A} r.
Arguments self' {A} r.
Arguments world' {A} r.
Arguments events {A} r.

Definition M (A : Type) := WinHttpWebSocketTransport -> World -> Run A.

Definition ret {A} (a : A) : M A :=
  fun self w => {| outcome := Returned a; self' := self; world' := w; events := [] |}.

Definition throw {A} (e : Exception) : M A :=
  fun self w => {| outcome := Thrown e; self' := self; world' := w; events := [] |}.

(** A run with further events in front of its own, and a run wrapped in
    two events. *)
Definition prepend {A} (ev : list Event) (r : Run A) : Run A :=
  {| outcome := outcome r; self' := self' r; world' := world' r;
     events := ev ++ events r |}.

Definition bracket {A} (before after : Event) (r : Run A) : Run A :=
  {| outcome := outcome r; self' := self' r; world' := world' r;
     events := before :: events r ++ [after] |}.

Definition bind {A B} (m : M A) (k : A -> M B) : M B :=
  fun self w =>
    let r := m self w in
    match outcome r with
    | Returned a => prepend (events r) (k a (self' r) (world' r))
    | Thrown e =>
        {| outcome := Thrown e; self' := self' r; world' := world' r;
           events := events r |}
    end.

Definition emit (e : Event) : M unit :=
  fun self w => {| outcome := Returned tt; self' := self; world' := w; events := [e] |}.

Definition get_socketHandle : M HINTERNET :=
  fun self w => {| outcome := Returned (m_socketHandle self); self' := self;
                   world' := w; events := [] |}.

Definition set_socketHandle (h : HINTERNET) : M unit :=
  fun self w => {| outcome := Returned tt; self' := {| m_socketHandle := h |};
                   world' := w; events := [] |}.

(** A call into the world. *)
Definition native {A} (f : World -> A * World) : M A :=
  fun self w => {| outcome := Returned (fst (f w)); self' := self;
                   world' := snd (f w); events := [] |}.

Definition observe {A} (f : World -> A) : M A :=
  fun self w => {| outcome := Returned (f w); self' := self; world' := w; events := [] |}.

(** [std::lock_guard<std::mutex> lock(m)] followed by the rest of the scope:
    the mutex is released when the scope is left, by return or by throw. *)
Definition lock_guard {A} (m : Mutex) (body : M A) : M A :=
  fun self w => bracket (EvLock m) (EvUnlock m) (body self w).

End Transport.

Arguments Run World A : clear implicits.
Arguments M World A : clear implicits.
Arguments outcome {World A} r.
Arguments self' {World A} r.
Arguments world' {World A} r.
Arguments events {World A} r.
Arguments prepend {World A} ev r.
Arguments bracket {World A} before after r.

Declare Scope transport_scope.
Delimit Scope transport_scope with transport.
Notation "x <- c1 ;; c2" := (bind c1 (fun x => c2))
  (at level 61, c1 at next level, right associativity) : transport_scope.
Notation "c1 ;; c2" := (bind c1 (fun _ => c2))
  (at level 61, right associativity) : transport_scope.

Section Members.

Context {World : Type} {P : Platform World}.
Local Open Scope transport_scope.

(** ** Collaborators declared outside the file *)

(** Modelled from the spec: the cancellation state of [Azure::Core::Context].
    A node's effective flag is set when its own flag or an ancestor's has
    been requested. *)
Fixpoint EffectiveFlagSet (context : Context) (w : World) : bool :=
  match context with
  | ApplicationContext => false
  | ChildContext parent _ flag =>
      match flag with
      | Some f => cancel_requested w f
      | None => false
      end || EffectiveFlagSet parent w
  end.

(** Modelled from the spec: the deadline state of [Azure::Core::Context].
    A node's effective deadline has passed when its own deadline or an
    ancestor's lies before the current time. *)
Fixpoint EffectiveDeadlinePassed (context : Context) (w : World) : bool :=
  match context with
  | ApplicationContext => false
  | ChildContext parent deadline _ =>
      match deadline with
      | Some d => d <? system_clock_now w
      | None => false
      end || EffectiveDeadlinePassed parent w
  end.

Definition IsCancelled (context : Context) (w : World) : bool :=
  EffectiveFlagSet context w || EffectiveDeadlinePassed context w.

(** Modelled from the spec: [Context::ThrowIfCancelled], the spec's
    CheckCancelled.  Fails with Cancelled when the effective flag is set or
    the effective deadline has passed; otherwise does nothing. *)
Definition ThrowIfCancelled (context : Context) : M World unit :=
  emit EvThrowIfCancelled ;;
  cancelled <- observe (IsCancelled context) ;;
  if (cancelled : bool) then throw OperationCancelledException else ret tt.

(** Modelled from the spec: [GetErrorAndThrow], a member of the base class
    [WinHttpTransport].  Raises the transport error, carrying the message
    and the native error code. *)
Definition GetErrorAndThrow {A} (message : string) (err : DWORD) : M World A :=
  throw (TransportException message err).

(** The one-argument overload takes the code from [GetLastError]. *)
Definition GetLastErrorAndThrow {A} (message : string) : M World A :=
  err <- observe GetLastError ;;
  GetErrorAndThrow message err.

(** Modelled from the spec: [HINTERNET_deleter], the release routine of the
    single-owner handle wrapper [unique_HINTERNET]. *)
Definition HINTERNET_deleter (h : HINTERNET) : M World unit :=
  emit (EvWinHttpCloseHandle h) ;;
  native (fun w => (tt, WinHttpCloseHandle h w)).

(** [std::unique_ptr::reset(p)] on [m_socketHandle]: stores [p], then runs
    the deleter on the old pointer when that was not null. *)
Definition m_socketHandle_reset (p : HINTERNET) : M World unit :=
  old <- get_socketHandle ;;
  set_socketHandle p ;;
  if old =? NULL then ret tt else HINTERNET_deleter old.

(** ** Member functions *)

Definition OnResponseReceived (requestHandle : HINTERNET) : M World unit :=
  emit (EvWinHttpWebSocketCompleteUpgrade requestHandle) ;;
  h <- native (WinHttpWebSocketCompleteUpgrade requestHandle) ;;
  m_socketHandle_reset h ;;
  h' <- get_socketHandle ;;
  if h' =? NULL
  then GetLastErrorAndThrow "Error Upgrading HttpRequest handle to WebSocket handle."
  else ret tt.

Definition CompleteUpgrade : M World unit := ret tt.

Definition Close : M World unit := m_socketHandle_reset NULL.

Definition GetCloseSocketInformation (context : Context)
  : M World (uint16_t * string) :=
  ThrowIfCancelled context ;;
  let closeReason := repeat x00 (Z.to_nat WINHTTP_WEB_SOCKET_MAX_CLOSE_REASON_LENGTH) in
  lock_guard m_receiveMutex (
    h <- get_socketHandle ;;
    emit (EvWinHttpWebSocketQueryCloseStatus h
            WINHTTP_WEB_SOCKET_MAX_CLOSE_REASON_LENGTH) ;;
    q <- native (WinHttpWebSocketQueryCloseStatus h
                   WINHTTP_WEB_SOCKET_MAX_CLOSE_REASON_LENGTH) ;;
    let closeStatus := query_status q in
    let closeReason := store closeReason (query_reason q) in
    if query_err q =? 0
    then ret (closeStatus, string_of_list_byte (c_str_bytes closeReason))
    else GetErrorAndThrow "WinHttpGetCloseStatus() failed" (query_err q)).

(** The reason arguments [CloseSocket] hands to [WinHttpWebSocketClose]:
    a null pointer for an empty reason, and the size cast to [DWORD]. *)
Definition reason_pointer (disconnectReason : string) : option string :=
  if String.eqb disconnectReason EmptyString then None
  else Some disconnectReason.

Definition reason_size (disconnectReason : string) : DWORD :=
  to_DWORD (Z.of_nat (String.length disconnectReason)).

Definition CloseSocket (status : uint16_t) (disconnectReason : string)
    (context : Context) : M World unit :=
  ThrowIfCancelled context ;;
  h <- get_socketHandle ;;
  let reason := reason_pointer disconnectReason in
  let reasonLength := reason_size disconnectReason in
  emit (EvWinHttpWebSocketClose h status reason reasonLength) ;;
  err <- native (WinHttpWebSocketClose h status reason reasonLength) ;;
  (if err =? 0 then ret tt
   else GetErrorAndThrow "WinHttpWebSocketClose() failed" err) ;;
  ThrowIfCancelled context ;;
  closeInformation <- GetCloseSocketInformation context ;;
  if fst closeInformation =? status
  then ret tt
  else throw (runtime_error
                ("Close status mismatch, got " ++ to_string (fst closeInformation)
                 ++ " expected " ++ to_string status)).

(** The [switch] of [SendFrame]; [None] is its [default:] branch. *)
Definition SendFrame_bufferType (frameType : WebSocketFrameType)
  : option WINHTTP_WEB_SOCKET_BUFFER_TYPE :=
  match frameType with
  | FrameTypeText => Some WINHTTP_WEB_SOCKET_UTF8_MESSAGE_BUFFER_TYPE
  | FrameTypeBinary => Some WINHTTP_WEB_SOCKET_BINARY_MESSAGE_BUFFER_TYPE
  | FrameTypeBinaryFragment => Some WINHTTP_WEB_SOCKET_BINARY_FRAGMENT_BUFFER_TYPE
  | FrameTypeTextFragment => Some WINHTTP_WEB_SOCKET_UTF8_FRAGMENT_BUFFER_TYPE
  | _ => None
  end.

Definition SendFrame (frameType : WebSocketFrameType) (frameData : list byte)
    (context : Context) : M World unit :=
  ThrowIfCancelled context ;;
  bufferType <-
    match SendFrame_bufferType frameType with
    | Some b => ret b
    | None => throw (runtime_error "Unknown frame type.")
    end ;;
  lock_guard m_sendMutex (
    h <- get_socketHandle ;;
    let dataLength := to_DWORD (Z.of_nat (List.length frameData)) in
    emit (EvWinHttpWebSocketSend h bufferType frameData dataLength) ;;
    err <- native (WinHttpWebSocketSend h bufferType frameData dataLength) ;;
    if err =? 0 then ret tt
    else GetErrorAndThrow "WinHttpWebSocketSend() failed" err).

(** The [switch] of [ReceiveFrame]; [None] is its [default:] branch. *)
Definition ReceiveFrame_frameType (bufferType : WINHTTP_WEB_SOCKET_BUFFER_TYPE)
  : option WebSocketFrameType :=
  if bufferType =? WINHTTP_WEB_SOCKET_UTF8_MESSAGE_BUFFER_TYPE then Some FrameTypeText
  else if bufferType =? WINHTTP_WEB_SOCKET_BINARY_MESSAGE_BUFFER_TYPE then Some FrameTypeBinary
  else if bufferType =? WINHTTP_WEB_SOCKET_BINARY_FRAGMENT_BUFFER_TYPE then Some FrameTypeBinaryFragment
  else if bufferType =? WINHTTP_WEB_SOCKET_UTF8_FRAGMENT_BUFFER_TYPE then Some FrameTypeTextFragment
  else if bufferType =? WINHTTP_WEB_SOCKET_CLOSE_BUFFER_TYPE then Some FrameTypeClosed
  else None.

(** Returns the out-parameter [frameTypeReceived] together with the buffer. *)
Definition ReceiveFrame (context : Context)
  : M World (WebSocketFrameType * list byte) :=
  let buffer := vector_of_size 128 in
  ThrowIfCancelled context ;;
  lock_guard m_receiveMutex (
    h <- get_socketHandle ;;
    let bufferLength := to_DWORD (Z.of_nat (List.length buffer)) in
    emit (EvWinHttpWebSocketReceive h bufferLength) ;;
    out <- native (WinHttpWebSocketReceive h bufferLength) ;;
    let err := recv_err out in
    let buffer := store buffer (recv_stored out) in
    let bufferBytesRead := recv_bytesRead out in
    let bufferType := recv_bufferType out in
    if negb (err =? 0) && negb (err =? ERROR_INSUFFICIENT_BUFFER)
    then GetErrorAndThrow "WinHttpWebSocketReceive() failed" err
    else
      let buffer := resize (Z.to_nat bufferBytesRead) buffer in
      match ReceiveFrame_frameType bufferType with
      | Some frameTypeReceived => ret (frameTypeReceived, buffer)
      | None => throw (runtime_error "Unknown frame type.")
      end).

End Members.

(** ** Shorthands for stating what a call did *)

Section Shorthands.

Context {World : Type} {P : Platform World}.

(** Shorthands for the native calls a member function makes from a given
    object and world. *)
Definition native_send (frameData : list byte)
    (bufferType : WINHTTP_WEB_SOCKET_BUFFER_TYPE)
    (self : WinHttpWebSocketTransport) (w : World) : DWORD * World :=
  WinHttpWebSocketSend (m_socketHandle self) bufferType frameData
    (to_DWORD (Z.of_nat (List.length frameData))) w.

Definition native_receive (self : WinHttpWebSocketTransport) (w : World)
  : ReceiveOut * World :=
  WinHttpWebSocketReceive (m_socketHandle self) 128 w.

Definition native_close (status : uint16_t) (disconnectReason : string)
    (self : WinHttpWebSocketTransport) (w : World) : DWORD * World :=
  WinHttpWebSocketClose (m_socketHandle self) status
    (reason_pointer disconnectReason) (reason_size disconnectReason) w.

Definition native_query (self : WinHttpWebSocketTransport) (w : World)
  : QueryOut * World :=
  WinHttpWebSocketQueryCloseStatus (m_socketHandle self)
    WINHTTP_WEB_SOCKET_MAX_CLOSE_REASON_LENGTH w.

Definition send_events (frameData : list byte)
    (bufferType : WINHTTP_WEB_SOCKET_BUFFER_TYPE)
    (self : WinHttpWebSocketTransport) : list Event :=
  [EvThrowIfCancelled; EvLock m_sendMutex;
   EvWinHttpWebSocketSend (m_socketHandle self) bufferType frameData
     (to_DWORD (Z.of_nat (List.length frameData)));
   EvUnlock m_sendMutex].

Definition receive_events (self : WinHttpWebSocketTransport) : list Event :=
  [EvThrowIfCancelled; EvLock m_receiveMutex;
   EvWinHttpWebSocketReceive (m_socketHandle self) 128;
   EvUnlock m_receiveMutex].

Definition query_events (self : WinHttpWebSocketTransport) : list Event :=
  [EvThrowIfCancelled; EvLock m_receiveMutex;
   EvWinHttpWebSocketQueryCloseStatus (m_socketHandle self)
     WINHTTP_WEB_SOCKET_MAX_CLOSE_REASON_LENGTH;
   EvUnlock m_receiveMutex].

(** The buffer [ReceiveFrame] returns, from what the native call stored
    and the byte count it reported. *)
Definition received_buffer (out : ReceiveOut) : list byte :=
  resize (Z.to_nat (recv_bytesRead out))
         (store (vector_of_size 128) (recv_stored out)).

Definition receive_failed (out : ReceiveOut) : bool :=
  negb (recv_err out =? 0) && negb (recv_err out =? ERROR_INSUFFICIENT_BUFFER).

Definition close_reason (q : QueryOut) : string :=
  string_of_list_byte
    (c_str_bytes
       (store (repeat x00 (Z.to_nat WINHTTP_WEB_SOCKET_MAX_CLOSE_REASON_LENGTH))
              (query_reason q))).

Definition close_event (status : uint16_t) (disconnectReason : string)
    (self : WinHttpWebSocketTransport) : Event :=
  EvWinHttpWebSocketClose (m_socketHandle self) status
    (reason_pointer disconnectReason) (reason_size disconnectReason).

(** A call that failed at its first cancellation check: it threw
    Cancelled, made that one check and nothing else, and left the object
    and the world as they were. *)
Definition fails_at_first_check {A} (self : WinHttpWebSocketTransport)
    (w : World) (r : Run World A) : Prop :=
  outcome r = Thrown OperationCancelledException /\
  events r = [EvThrowIfCancelled] /\
  self' r = self /\
  world' r = w.

(** The frame types [SendFrame] translates, and the wire buffer types
    [ReceiveFrame] translates. *)
Definition sendable : list WebSocketFrameType :=
  [FrameTypeText; FrameTypeBinary; FrameTypeTextFragment; FrameTypeBinaryFragment].

Definition recognized : list WINHTTP_WEB_SOCKET_BUFFER_TYPE :=
  [WINHTTP_WEB_SOCKET_UTF8_MESSAGE_BUFFER_TYPE;
   WINHTTP_WEB_SOCKET_BINARY_MESSAGE_BUFFER_TYPE;
   WINHTTP_WEB_SOCKET_BINARY_FRAGMENT_BUFFER_TYPE;
   WINHTTP_WEB_SOCKET_UTF8_FRAGMENT_BUFFER_TYPE;
   WINHTTP_WEB_SOCKET_CLOSE_BUFFER_TYPE].

(** The call threw the plain [std::runtime_error] of the protocol checks. *)
Definition isProtocolError {A} (o : Outcome A) : bool :=
  match o with
  | Thrown (runtime_error _) => true
  | _ => false
  end.

(** *** Where the cancellation checks sit in a call's events *)

(** The events of a call with the mutex steps left out. *)
Definition io_steps (tr : list Event) : list Event :=
  filter (fun e => negb (isLockStep e)) tr.

(** Every native I/O call comes directly after a cancellation check. *)
Fixpoint checkedBefore (previousIsCheck : bool) (tr : list Event) : bool :=
  match tr with
  | [] => true
  | e :: rest =>
      (if isNativeIO e then previousIsCheck else true)
      && checkedBefore (isCheck e) rest
  end.

(** Every native I/O call is directly followed by a cancellation check. *)
Fixpoint checkedAfter (tr : list Event) : bool :=
  match tr with
  | [] => true
  | e :: rest =>
      (if isNativeIO e
       then match rest with
            | next :: _ => isCheck next
            | [] => false
            end
       else true)
      && checkedAfter rest
  end.

(** No native I/O call is followed, at any distance, by a cancellation
    check. *)
Fixpoint neverCheckedAfter (tr : list Event) : bool :=
  match tr with
  | [] => true
  | e :: rest =>
      (if isNativeIO e then negb (existsb isCheck rest) else true)
      && neverCheckedAfter rest
  end.

(** *** A channel's lifetime as a sequence of calls *)

Inductive Call :=
| CallSendFrame (frameType : WebSocketFrameType) (frameData : list byte)
    (context : Context)
| CallReceiveFrame (context : Context)
| CallGetCloseSocketInformation (context : Context)
| CallCloseSocket (status : uint16_t) (disconnectReason : string)
    (context : Context)
| CallCompleteUpgrade
| CallClose.

(** The caller of a member function, catching what it throws and dropping
    what it returns. *)
Definition attempt {A} (m : M World A) : M World unit :=
  fun self w =>
    let r := m self w in
    {| outcome := Returned tt; self' := self' r; world' := world' r;
       events := events r |}.

Definition call (c : Call) : M World unit :=
  match c with
  | CallSendFrame frameType frameData context =>
      attempt (SendFrame frameType frameData context)
  | CallReceiveFrame context => attempt (ReceiveFrame context)
  | CallGetCloseSocketInformation context =>
      attempt (GetCloseSocketInformation context)
  | CallCloseSocket status disconnectReason context =>
      attempt (CloseSocket status disconnectReason context)
  | CallCompleteUpgrade => attempt CompleteUpgrade
  | CallClose => attempt Close
  end.

Fixpoint calls (cs : list Call) : M World unit :=
  match cs with
  | [] => ret tt
  | c :: rest => bind (call c) (fun _ => calls rest)
  end.

Definition releases (tr : list Event) : nat :=
  List.length (filter isRelease tr).

(** A step that leaves the object as it is and releases no handle. *)
Definition keeps_handle {A} (m : M World A) : Prop :=
  forall self w,
    self' (m self w) = self /\ filter isRelease (events (m self w)) = [].

(** The native receive delivered [data], whole, with wire type
    [bufferType]. *)
Definition delivers (out : ReceiveOut)
    (bufferType : WINHTTP_WEB_SOCKET_BUFFER_TYPE) (data : list byte) : Prop :=
  recv_err out = 0 /\
  recv_stored out = data /\
  recv_bytesRead out = Z.of_nat (List.length data) /\
  recv_bufferType out = bufferType.

End Shorthands.

(** ** A scripted world, to run the transport on concrete inputs *)

Module Sim.

(** Windows error codes the scripted WinHTTP reports (winerror.h). *)
Definition ERROR_INVALID_HANDLE : DWORD := 6.
Definition ERROR_WINHTTP_CONNECTION_ERROR : DWORD := 12030.

Record World := {
  now : Z;
  flags : list CancelFlag;          (* cancellation flags requested so far *)
  cancel_during_io : list CancelFlag; (* flags another thread requests while
                                         a WinHTTP I/O call is blocking *)
  wire : list (WINHTTP_WEB_SOCKET_BUFFER_TYPE * list byte);
                                    (* frames sent and not yet received: the
                                       mirrored byte stream *)
  peer_close_status : uint16_t;     (* status the peer acknowledges a close with *)
  peer_close_reason : list byte;
  next_handle : HINTERNET;          (* what the upgrade will return *)
  released : list HINTERNET         (* handles closed so far *)
}.

(** Time passes and pending cancellations land while a call blocks. *)
Definition blocked (w : World) : World :=
  {| now := now w + 1;
     flags := flags w ++ cancel_during_io w;
     cancel_during_io := [];
     wire := wire w;
     peer_close_status := peer_close_status w;
     peer_close_reason := peer_close_reason w;
     next_handle := next_handle w;
     released := released w |}.

Definition set_wire (fs : list (WINHTTP_WEB_SOCKET_BUFFER_TYPE * list byte))
    (w : World) : World :=
  {| now := now w; flags := flags w; cancel_during_io := cancel_during_io w;
     wire := fs;
     peer_close_status := peer_close_status w;
     peer_close_reason := peer_close_reason w;
     next_handle := next_handle w;
     released := released w |}.

Definition release (h : HINTERNET) (w : World) : World :=
  {| now := now w; flags := flags w; cancel_during_io := cancel_during_io w;
     wire := wire w;
     peer_close_status := peer_close_status w;
     peer_close_reason := peer_close_reason w;
     next_handle := next_handle w;
     released := released w ++ [h] |}.

Definition send (h : HINTERNET) (bufferType : WINHTTP_WEB_SOCKET_BUFFER_TYPE)
    (data : list byte) (len : DWORD) (w : World) : DWORD * World :=
  if h =? NULL then (ERROR_INVALID_HANDLE, w)
  else (0, set_wire (wire w ++ [(bufferType, firstn (Z.to_nat len) data)]) (blocked w)).

(** A frame that fits the caller's buffer is delivered whole; of a longer
    one the first [len] bytes are delivered and the call reports
    ERROR_INSUFFICIENT_BUFFER. *)
Definition receive (h : HINTERNET) (len : DWORD) (w : World) : ReceiveOut * World :=
  if h =? NULL
  then ({| recv_err := ERROR_INVALID_HANDLE; recv_stored := [];
           recv_bytesRead := 0; recv_bufferType := 0 |}, w)
  else
    match wire w with
    | [] => ({| recv_err := ERROR_WINHTTP_CONNECTION_ERROR; recv_stored := [];
                recv_bytesRead := 0; recv_bufferType := 0 |}, blocked w)
    | (bufferType, payload) :: rest =>
        let chunk := firstn (Z.to_nat len) payload in
        ({| recv_err := if (Z.of_nat (List.length payload) <=? len)
                        then 0 else ERROR_INSUFFICIENT_BUFFER;
            recv_stored := chunk;
            recv_bytesRead := Z.of_nat (List.length chunk);
            recv_bufferType := bufferType |},
         set_wire rest (blocked w))
    end.

Definition close (h : HINTERNET) (status : uint16_t) (reason : option string)
    (len : DWORD) (w : World) : DWORD * World :=
  if h =? NULL then (ERROR_INVALID_HANDLE, w) else (0, blocked w).

Definition query (h : HINTERNET) (len : DWORD) (w : World) : QueryOut * World :=
  if h =? NULL
  then ({| query_err := ERROR_INVALID_HANDLE; query_status := 0;
           query_reason := []; query_reasonLength := 0 |}, w)
  else ({| query_err := 0; query_status := peer_close_status w;
           query_reason := peer_close_reason w;
           query_reasonLength := Z.of_nat (List.length (peer_close_reason w)) |},
        blocked w).

#[global] Instance platform : Platform World := {
  system_clock_now := now;
  cancel_requested := fun w f => existsb (Nat.eqb f) (flags w);
  GetLastError := fun _ => ERROR_INVALID_HANDLE;
  WinHttpWebSocketCompleteUpgrade := fun _ w => (next_handle w, w);
  WinHttpCloseHandle := release;
  WinHttpWebSocketClose := close;
  WinHttpWebSocketQueryCloseStatus := query;
  WinHttpWebSocketSend := send;
  WinHttpWebSocketReceive := receive
}.

(** A quiet world: time 100, nothing cancelled, empty wire, a peer that
    acknowledges a close with status 1000. *)
Definition quiet : World :=
  {| now := 100; flags := []; cancel_during_io := []; wire := [];
     peer_close_status := 1000; peer_close_reason := [];
     next_handle := 7; released := [] |}.

Definition with_peer_close_status (s : uint16_t) (w : World) : World :=
  {| now := now w; flags := flags w; cancel_during_io := cancel_during_io w;
     wire := wire w;
     peer_close_status := s;
     peer_close_reason := peer_close_reason w;
     next_handle := next_handle w;
     released := released w |}.

Definition with_cancel_during_io (fs : list CancelFlag) (w : World) : World :=
  {| now := now w; flags := flags w; cancel_during_io := fs;
     wire := wire w;
     peer_close_status := peer_close_status w;
     peer_close_reason := peer_close_reason w;
     next_handle := next_handle w;
     released := released w |}.

(** An open channel on handle 7, and a channel after [Close]. *)
Definition open_channel : WinHttpWebSocketTransport := {| m_socketHandle := 7 |}.
Definition closed_channel : WinHttpWebSocketTransport := {| m_socketHandle := NULL |}.

(** A context with its own cancellation flag 0 and no deadline. *)
Definition cancellable : Context := ChildContext ApplicationContext None (Some 0%nat).

(** A context whose deadline is the given instant. *)
Definition deadline_at (d : Z) : Context := ChildContext ApplicationContext (Some d) None.

(** Another thread cancels flag 0 while the next WinHTTP call blocks. *)
Definition cancel_lands_during_io : World := with_cancel_during_io [0%nat] quiet.

(** A payload one byte longer than the staging buffer of [ReceiveFrame]. *)
Definition long_payload : list byte := repeat x01 129.

(** The open channel after [Close]. *)
Definition after_Close : Run World unit := Close open_channel quiet.

(** The world after a frame was sent on the open channel. *)
Definition after_send (frameType : WebSocketFrameType) (frameData : list byte)
  : World :=
  world' (SendFrame frameType frameData ApplicationContext open_channel quiet).

End Sim.

(** ** Upgrades, and which mutex is held at a native call *)

Section Lifetimes.

Context {World : Type} {P : Platform World}.

(** 1 when the object stores a handle, 0 when it stores null. *)
Definition holds (self : WinHttpWebSocketTransport) : nat :=
  if m_socketHandle self =? NULL then 0%nat else 1%nat.

(** A channel's life with its upgrades: [OnResponseReceived] may run at any
    point between the other member functions. *)
Inductive LifetimeCall :=
| CallOnResponseReceived (requestHandle : HINTERNET)
| CallMember (c : Call).

Definition lifetime_call (c : LifetimeCall) : M World unit :=
  match c with
  | CallOnResponseReceived requestHandle =>
      attempt (OnResponseReceived requestHandle)
  | CallMember c => call c
  end.

Fixpoint lifetime (cs : list LifetimeCall) : M World unit :=
  match cs with
  | [] => ret tt
  | c :: rest => bind (lifetime_call c) (fun _ => lifetime rest)
  end.

(** The calls that drop the stored handle: [Close] resets it, and
    [OnResponseReceived] assigns over it. *)
Definition drops_stored_handle (c : LifetimeCall) : bool :=
  match c with
  | CallOnResponseReceived _ => true
  | CallMember CallClose => true
  | CallMember _ => false
  end.

(** The handles stored, and not null, at the moment of each call that drops
    the stored handle, in the order of the calls. *)
Fixpoint dropped_handles (cs : list LifetimeCall)
    (self : WinHttpWebSocketTransport) (w : World) : list HINTERNET :=
  match cs with
  | [] => []
  | c :: rest =>
      (if drops_stored_handle c && negb (m_socketHandle self =? NULL)
       then [m_socketHandle self] else [])
      ++ dropped_handles rest (self' (lifetime_call c self w))
                              (world' (lifetime_call c self w))
  end.

Definition Mutex_eqb (a b : Mutex) : bool :=
  match a, b with
  | m_sendMutex, m_sendMutex | m_receiveMutex, m_receiveMutex => true
  | _, _ => false
  end.

(** The native I/O calls among the events, each with the mutexes held when
    it was made; [held] are those held at the start. *)
Fixpoint io_under_locks (held : list Mutex) (tr : list Event)
  : list (Event * list Mutex) :=
  match tr with
  | [] => []
  | EvLock m :: rest => io_under_locks (m :: held) rest
  | EvUnlock m :: rest =>
      io_under_locks (filter (fun x => negb (Mutex_eqb m x)) held) rest
  | e :: rest =>
      if isNativeIO e then (e, held) :: io_under_locks held rest
      else io_under_locks held rest
  end.

(** The mutexes still held after the events. *)
Fixpoint held_after (held : list Mutex) (tr : list Event) : list Mutex :=
  match tr with
  | [] => held
  | EvLock m :: rest => held_after (m :: held) rest
  | EvUnlock m :: rest =>
      held_after (filter (fun x => negb (Mutex_eqb m x)) held) rest
  | _ :: rest => held_after held rest
  end.

(** The mutex each native I/O call is made under: the send mutex for a
    send, the receive mutex for a receive and for the close-status query,
    none for the close itself. *)
Definition expected_mutexes (e : Event) : list Mutex :=
  match e with
  | EvWinHttpWebSocketSend _ _ _ _ => [m_sendMutex]
  | EvWinHttpWebSocketReceive _ _ => [m_receiveMutex]
  | EvWinHttpWebSocketQueryCloseStatus _ _ => [m_receiveMutex]
  | _ => []
  end.

Fixpoint mutexes_eqb (a b : list Mutex) : bool :=
  match a, b with
  | [], [] => true
  | x :: a', y :: b' => Mutex_eqb x y && mutexes_eqb a' b'
  | _, _ => false
  end.

(** Every native I/O call was made under the mutexes expected for it, and
    no mutex is held at the end. *)
Definition locks_as_expected (tr : list Event) : bool :=
  forallb (fun p => mutexes_eqb (snd p) (expected_mutexes (fst p)))
          (io_under_locks [] tr)
  && mutexes_eqb (held_after [] tr) [].

(** The message [OnResponseReceived] throws with. *)
Definition upgrade_failed_message : string :=
  "Error Upgrading HttpRequest handle to WebSocket handle.".

End Lifetimes.

(** ** A replaying world: every native call gives a canned answer *)

Module Replay.

Record World := {
  upgrade_answer : HINTERNET;
  close_answer : DWORD;
  query_answer : QueryOut;
  send_answer : DWORD;
  receive_answer : ReceiveOut;
  last_error : DWORD;
  cancelled : bool;            (* every cancellation flag is requested *)
  cancel_after_io : bool;      (* ... or will be, once a native I/O call blocks *)
  closed_handles : list HINTERNET
}.

Definition after_io (w : World) : World :=
  {| upgrade_answer := upgrade_answer w; close_answer := close_answer w;
     query_answer := query_answer w; send_answer := send_answer w;
     receive_answer := receive_answer w; last_error := last_error w;
     cancelled := cancelled w || cancel_after_io w;
     cancel_after_io := cancel_after_io w;
     closed_handles := closed_handles w |}.

Definition close_handle (h : HINTERNET) (w : World) : World :=
  {| upgrade_answer := upgrade_answer w; close_answer := close_answer w;
     query_answer := query_answer w; send_answer := send_answer w;
     receive_answer := receive_answer w; last_error := last_error w;
     cancelled := cancelled w; cancel_after_io := cancel_after_io w;
     closed_handles := closed_handles w ++ [h] |}.

#[global] Instance platform : Platform World := {
  system_clock_now := fun _ => 0;
  cancel_requested := fun w _ => cancelled w;
  GetLastError := last_error;
  WinHttpWebSocketCompleteUpgrade := fun _ w => (upgrade_answer w, w);
  WinHttpCloseHandle := close_handle;
  WinHttpWebSocketClose := fun _ _ _ _ w => (close_answer w, after_io w);
  WinHttpWebSocketQueryCloseStatus := fun _ _ w => (query_answer w, after_io w);
  WinHttpWebSocketSend := fun _ _ _ _ w => (send_answer w, after_io w);
  WinHttpWebSocketReceive := fun _ _ w => (receive_answer w, after_io w)
}.

(** Everything succeeds: the upgrade returns handle 9, the peer echoes
    status 1000 with reason "bye", a receive delivers the text "hi". *)
Definition fine : World :=
  {| upgrade_answer := 9;
     close_answer := 0;
     query_answer := {| query_err := 0; query_status := 1000;
                        query_reason := [x62; x79; x65];
                        query_reasonLength := 3 |};
     send_answer := 0;
     receive_answer := {| recv_err := 0; recv_stored := [x68; x69];
                          recv_bytesRead := 2;
                          recv_bufferType :=
                            WINHTTP_WEB_SOCKET_UTF8_MESSAGE_BUFFER_TYPE |};
     last_error := 0;
     cancelled := false;
     cancel_after_io := false;
     closed_handles := [] |}.

Definition with_upgrade (h : HINTERNET) (e : DWORD) (w : World) : World :=
  {| upgrade_answer := h; close_answer := close_answer w;
     query_answer := query_answer w; send_answer := send_answer w;
     receive_answer := receive_answer w; last_error := e;
     cancelled := cancelled w; cancel_after_io := cancel_after_io w;
     closed_handles := closed_handles w |}.

Definition with_close (e : DWORD) (w : World) : World :=
  {| upgrade_answer := upgrade_answer w; close_answer := e;
     query_answer := query_answer w; send_answer := send_answer w;
     receive_answer := receive_answer w; last_error := last_error w;
     cancelled := cancelled w; cancel_after_io := cancel_after_io w;
     closed_handles := closed_handles w |}.

Definition with_query (q : QueryOut) (w : World) : World :=
  {| upgrade_answer := upgrade_answer w; close_answer := close_answer w;
     query_answer := q; send_answer := send_answer w;
     receive_answer := receive_answer w; last_error := last_error w;
     cancelled := cancelled w; cancel_after_io := cancel_after_io w;
     closed_handles := closed_handles w |}.

Definition with_send (e : DWORD) (w : World) : World :=
  {| upgrade_answer := upgrade_answer w; close_answer := close_answer w;
     query_answer := query_answer w; send_answer := e;
     receive_answer := receive_answer w; last_error := last_error w;
     cancelled := cancelled w; cancel_after_io := cancel_after_io w;
     closed_handles := closed_handles w |}.

Definition with_receive (r : ReceiveOut) (w : World) : World :=
  {| upgrade_answer := upgrade_answer w; close_answer := close_answer w;
     query_answer := query_answer w; send_answer := send_answer w;
     receive_answer := r; last_error := last_error w;
     cancelled := cancelled w; cancel_after_io := cancel_after_io w;
     closed_handles := closed_handles w |}.

Definition with_cancel_after_io (w : World) : World :=
  {| upgrade_answer := upgrade_answer w; close_answer := close_answer w;
     query_answer := query_answer w; send_answer := send_answer w;
     receive_answer := receive_answer w; last_error := last_error w;
     cancelled := cancelled w; cancel_after_io := true;
     closed_handles := closed_handles w |}.

(** The receive reports ERROR_INSUFFICIENT_BUFFER with a full buffer, and
    a wire type that is none of the five. *)
Definition insufficient_unknown_type : World :=
  with_receive {| recv_err := ERROR_INSUFFICIENT_BUFFER;
                  recv_stored := repeat x01 128;
                  recv_bytesRead := 128;
                  recv_bufferType := 9 |} fine.

(** The receive reports ERROR_INSUFFICIENT_BUFFER with a full buffer, and
    as byte count the 130 bytes the frame has. *)
Definition insufficient_full_count : World :=
  with_receive {| recv_err := ERROR_INSUFFICIENT_BUFFER;
                  recv_stored := repeat x01 128;
                  recv_bytesRead := 130;
                  recv_bufferType :=
                    WINHTTP_WEB_SOCKET_UTF8_MESSAGE_BUFFER_TYPE |} fine.

Definition fresh : WinHttpWebSocketTransport := {| m_socketHandle := NULL |}.
Definition open : WinHttpWebSocketTransport := {| m_socketHandle := 5 |}.

(** A context with a cancellation flag of its own. *)
Definition context : Context := ChildContext ApplicationContext None (Some 0%nat).

End Replay.

(** * Properties *)

Section Properties.

Context {World : Type} {P : Platform World}.

(** ** Running a sequence of steps *)

Lemma bind_returned {A B} (m : M World A) (k : A -> M World B)
    (self : WinHttpWebSocketTransport) (w : World)
    (a : A) (s1 : WinHttpWebSocketTransport) (w1 : World) (ev : list Event) :
  m self w = {| outcome := Returned a; self' := s1; world' := w1; events := ev |} ->
  bind m k self w = prepend ev (k a s1 w1).
Proof. intros H. unfold bind. rewrite H. reflexivity. Qed.

Lemma bind_thrown {A B} (m : M World A) (k : A -> M World B)
    (self : WinHttpWebSocketTransport) (w : World)
    (e : Exception) (s1 : WinHttpWebSocketTransport) (w1 : World) (ev : list Event) :
  m self w = {| outcome := Thrown e; self' := s1; world' := w1; events := ev |} ->
  bind m k self w =
    {| outcome := Thrown e; self' := s1; world' := w1; events := ev |}.
Proof. intros H. unfold bind. rewrite H. reflexivity. Qed.

(** One step of a [bind] whose first action runs to a visible result. *)
Ltac bind_step :=
  lazymatch goal with
  | |- context [bind ?m ?k ?self ?w] =>
      first
        [ rewrite (bind_returned m k self w _ _ _ _ eq_refl)
        | rewrite (bind_thrown m k self w _ _ _ _ eq_refl) ];
      cbn beta
  end.

(** The same step, from a known equation for the first action. *)
Ltac bind_with E :=
  first [ rewrite (bind_returned _ _ _ _ _ _ _ _ E)
        | rewrite (bind_thrown _ _ _ _ _ _ _ _ E) ];
  cbn beta.

Ltac finish_run :=
  cbn [prepend bracket outcome self' world' events app
       ret throw GetErrorAndThrow];
  try reflexivity.

(** ** Cancellation checks *)

Lemma ThrowIfCancelled_passes (context : Context)
    (self : WinHttpWebSocketTransport) (w : World) :
  IsCancelled context w = false ->
  ThrowIfCancelled context self w =
    {| outcome := Returned tt; self' := self; world' := w;
       events := [EvThrowIfCancelled] |}.
Proof.
  intros Hc. unfold ThrowIfCancelled. do 2 bind_step.
  rewrite Hc. reflexivity.
Qed.

Lemma ThrowIfCancelled_throws (context : Context)
    (self : WinHttpWebSocketTransport) (w : World) :
  IsCancelled context w = true ->
  ThrowIfCancelled context self w =
    {| outcome := Thrown OperationCancelledException; self' := self;
       world' := w; events := [EvThrowIfCancelled] |}.
Proof.
  intros Hc. unfold ThrowIfCancelled. do 2 bind_step.
  rewrite Hc. reflexivity.
Qed.

Lemma IsCancelled_of_parts (context : Context) (w : World) :
  EffectiveDeadlinePassed context w = true \/ EffectiveFlagSet context w = true ->
  IsCancelled context w = true.
Proof.
  unfold IsCancelled. intros [H | H]; rewrite H; auto using orb_true_r.
Qed.

(** ** What each member function does, case by case *)

Lemma SendFrame_cancelled frameType frameData context self w :
  IsCancelled context w = true ->
  SendFrame frameType frameData context self w =
    {| outcome := Thrown OperationCancelledException; self' := self;
       world' := w; events := [EvThrowIfCancelled] |}.
Proof.
  intros Hc. unfold SendFrame.
  bind_with (ThrowIfCancelled_throws _ self w Hc). reflexivity.
Qed.

Lemma SendFrame_unknown frameType frameData context self w :
  IsCancelled context w = false ->
  SendFrame_bufferType frameType = None ->
  SendFrame frameType frameData context self w =
    {| outcome := Thrown (runtime_error "Unknown frame type."); self' := self;
       world' := w; events := [EvThrowIfCancelled] |}.
Proof.
  intros Hc Hb. unfold SendFrame.
  bind_with (ThrowIfCancelled_passes _ self w Hc).
  rewrite Hb. bind_step. reflexivity.
Qed.

Lemma SendFrame_sent frameType frameData context self w bufferType :
  IsCancelled context w = false ->
  SendFrame_bufferType frameType = Some bufferType ->
  SendFrame frameType frameData context self w =
    {| outcome :=
         (let err := fst (native_send frameData bufferType self w) in
          if err =? 0 then Returned tt
          else Thrown (TransportException "WinHttpWebSocketSend() failed" err));
       self' := self;
       world' := snd (native_send frameData bufferType self w);
       events := send_events frameData bufferType self |}.
Proof.
  intros Hc Hb. unfold SendFrame.
  bind_with (ThrowIfCancelled_passes _ self w Hc).
  rewrite Hb. bind_step. unfold lock_guard. do 3 bind_step.
  fold (native_send frameData bufferType self w).
  destruct (fst (native_send frameData bufferType self w) =? 0); reflexivity.
Qed.

Lemma ReceiveFrame_cancelled context self w :
  IsCancelled context w = true ->
  ReceiveFrame context self w =
    {| outcome := Thrown OperationCancelledException; self' := self;
       world' := w; events := [EvThrowIfCancelled] |}.
Proof.
  intros Hc. unfold ReceiveFrame.
  bind_with (ThrowIfCancelled_throws _ self w Hc). reflexivity.
Qed.

Lemma ReceiveFrame_received context self w :
  IsCancelled context w = false ->
  ReceiveFrame context self w =
    {| outcome :=
         (let out := fst (native_receive self w) in
          if receive_failed out
          then Thrown (TransportException "WinHttpWebSocketReceive() failed"
                         (recv_err out))
          else match ReceiveFrame_frameType (recv_bufferType out) with
               | Some frameTypeReceived =>
                   Returned (frameTypeReceived, received_buffer out)
               | None => Thrown (runtime_error "Unknown frame type.")
               end);
       self' := self;
       world' := snd (native_receive self w);
       events := receive_events self |}.
Proof.
  intros Hc. unfold ReceiveFrame.
  bind_with (ThrowIfCancelled_passes _ self w Hc).
  unfold lock_guard. do 3 bind_step.
  change (to_DWORD (Z.of_nat (List.length (vector_of_size 128)))) with 128.
  fold (native_receive self w).
  fold (receive_failed (fst (native_receive self w))).
  fold (received_buffer (fst (native_receive self w))).
  destruct (receive_failed (fst (native_receive self w))); [reflexivity |].
  destruct (ReceiveFrame_frameType _); reflexivity.
Qed.

Lemma GetCloseSocketInformation_cancelled context self w :
  IsCancelled context w = true ->
  GetCloseSocketInformation context self w =
    {| outcome := Thrown OperationCancelledException; self' := self;
       world' := w; events := [EvThrowIfCancelled] |}.
Proof.
  intros Hc. unfold GetCloseSocketInformation.
  bind_with (ThrowIfCancelled_throws _ self w Hc). reflexivity.
Qed.

Lemma GetCloseSocketInformation_queried context self w :
  IsCancelled context w = false ->
  GetCloseSocketInformation context self w =
    {| outcome :=
         (let q := fst (native_query self w) in
          if query_err q =? 0
          then Returned (query_status q, close_reason q)
          else Thrown (TransportException "WinHttpGetCloseStatus() failed"
                         (query_err q)));
       self' := self;
       world' := snd (native_query self w);
       events := query_events self |}.
Proof.
  intros Hc. unfold GetCloseSocketInformation.
  bind_with (ThrowIfCancelled_passes _ self w Hc).
  unfold lock_guard. do 3 bind_step.
  fold (native_query self w). fold (close_reason (fst (native_query self w))).
  destruct (query_err (fst (native_query self w)) =? 0); reflexivity.
Qed.

Lemma CloseSocket_cancelled status disconnectReason context self w :
  IsCancelled context w = true ->
  CloseSocket status disconnectReason context self w =
    {| outcome := Thrown OperationCancelledException; self' := self;
       world' := w; events := [EvThrowIfCancelled] |}.
Proof.
  intros Hc. unfold CloseSocket.
  bind_with (ThrowIfCancelled_throws _ self w Hc). reflexivity.
Qed.

(** [CloseSocket] when both of its own checks pass and the native close
    succeeds: what remains is the close-status query and the comparison. *)
Lemma CloseSocket_closed status disconnectReason context self w w1 :
  IsCancelled context w = false ->
  native_close status disconnectReason self w = (0, w1) ->
  IsCancelled context w1 = false ->
  CloseSocket status disconnectReason context self w =
    {| outcome :=
         (let q := fst (native_query self w1) in
          if query_err q =? 0
          then if query_status q =? status then Returned tt
               else Thrown (runtime_error
                      ("Close status mismatch, got " ++ to_string (query_status q)
                       ++ " expected " ++ to_string status))
          else Thrown (TransportException "WinHttpGetCloseStatus() failed"
                         (query_err q)));
       self' := self;
       world' := snd (native_query self w1);
       events := EvThrowIfCancelled :: close_event status disconnectReason self
                 :: EvThrowIfCancelled :: query_events self |}.
Proof.
  intros Hc Hclose Hc1. unfold CloseSocket.
  bind_with (ThrowIfCancelled_passes _ self w Hc).
  do 3 bind_step.
  fold (native_close status disconnectReason self w). rewrite Hclose.
  cbn [fst snd]. bind_step.
  bind_with (ThrowIfCancelled_passes _ self w1 Hc1).
  pose proof (GetCloseSocketInformation_queried _ self w1 Hc1) as E.
  cbv zeta in E |- *.
  fold (close_event status disconnectReason self).
  destruct (query_err (fst (native_query self w1)) =? 0).
  - bind_with E. cbn [fst].
    destruct (query_status (fst (native_query self w1)) =? status); reflexivity.
  - bind_with E. reflexivity.
Qed.

Lemma Close_open self w :
  m_socketHandle self <> NULL ->
  Close self w =
    {| outcome := Returned tt; self' := {| m_socketHandle := NULL |};
       world' := WinHttpCloseHandle (m_socketHandle self) w;
       events := [EvWinHttpCloseHandle (m_socketHandle self)] |}.
Proof.
  intros Hh. unfold Close, m_socketHandle_reset. do 2 bind_step.
  apply Z.eqb_neq in Hh. rewrite Hh.
  unfold HINTERNET_deleter. bind_step. reflexivity.
Qed.

Lemma Close_released self w :
  m_socketHandle self = NULL ->
  Close self w =
    {| outcome := Returned tt; self' := self; world' := w; events := [] |}.
Proof.
  intros Hh. unfold Close, m_socketHandle_reset. do 2 bind_step.
  rewrite Hh. destruct self as [h]. cbn in Hh. subst h. reflexivity.
Qed.

Lemma Close_leaves_null self w :
  m_socketHandle (self' (Close self w)) = NULL.
Proof.
  destruct (Z.eq_dec (m_socketHandle self) NULL) as [Hh | Hh].
  - rewrite (Close_released _ _ Hh). exact Hh.
  - rewrite (Close_open _ _ Hh). reflexivity.
Qed.

(** ** Buffers *)

Lemma resize_length (n : nat) (v : list byte) :
  List.length (resize n v) = n.
Proof.
  unfold resize. rewrite length_app, length_firstn, repeat_length. lia.
Qed.

Lemma store_length (buffer data : list byte) :
  List.length (store buffer data) = List.length buffer.
Proof.
  unfold store. rewrite length_app, length_firstn, length_skipn. lia.
Qed.

Lemma resize_prefix (n : nat) (v : list byte) :
  (n <= List.length v)%nat -> resize n v = firstn n v.
Proof.
  intros Hn. unfold resize.
  replace (n - List.length v)%nat with 0%nat by lia.
  cbn. apply app_nil_r.
Qed.

(** Data that fits the buffer lands at its start, whole. *)
Lemma store_fits (buffer data : list byte) :
  (List.length data <= List.length buffer)%nat ->
  firstn (List.length data) (store buffer data) = data.
Proof.
  intros Hfit. unfold store.
  rewrite (firstn_all2 data) by lia.
  rewrite firstn_app, firstn_all, Nat.sub_diag. cbn. apply app_nil_r.
Qed.

Lemma received_buffer_length (out : ReceiveOut) :
  List.length (received_buffer out) = Z.to_nat (recv_bytesRead out).
Proof. unfold received_buffer. apply resize_length. Qed.

(** What the native call delivered within the staging buffer comes back
    unchanged. *)
Lemma received_buffer_delivered (out : ReceiveOut) (data : list byte) :
  recv_stored out = data ->
  recv_bytesRead out = Z.of_nat (List.length data) ->
  (List.length data <= 128)%nat ->
  received_buffer out = data.
Proof.
  intros Hs Hn Hfit. unfold received_buffer. rewrite Hs, Hn, Nat2Z.id.
  rewrite resize_prefix.
  - apply store_fits. unfold vector_of_size. rewrite repeat_length. exact Hfit.
  - rewrite store_length. unfold vector_of_size. rewrite repeat_length. exact Hfit.
Qed.

(** Past the 128 bytes of the staging buffer the returned vector holds only
    the zero bytes [resize] appended: nothing the peer sent. *)
Lemma received_buffer_beyond_staging (out : ReceiveOut) (i : nat) :
  (128 <= i)%nat -> nth i (received_buffer out) x00 = x00.
Proof.
  intros Hi. unfold received_buffer, resize.
  set (v := store (vector_of_size 128) (recv_stored out)).
  assert (Hv : List.length v = 128%nat).
  { unfold v. rewrite store_length. unfold vector_of_size. apply repeat_length. }
  rewrite app_nth2 by (rewrite length_firstn; lia).
  apply nth_repeat.
Qed.

(** ** The close handshake *)

(** C1: when the native close and the close-status query that follows it
    both succeed, [CloseSocket] returns normally exactly when the status the
    peer echoed equals the status sent; when they differ it throws the
    protocol error whose message carries the received and the sent value. *)
Theorem CloseSocket_succeeds_iff_status_echoed
    (status : uint16_t) (disconnectReason : string) (context : Context)
    (self : WinHttpWebSocketTransport) (w w1 w2 : World) (q : QueryOut) :
  IsCancelled context w = false ->
  native_close status disconnectReason self w = (0, w1) ->
  IsCancelled context w1 = false ->
  native_query self w1 = (q, w2) ->
  query_err q = 0 ->
  (outcome (CloseSocket status disconnectReason context self w) = Returned tt
   <-> query_status q = status) /\
  (query_status q <> status ->
   outcome (CloseSocket status disconnectReason context self w) =
     Thrown (runtime_error
               ("Close status mismatch, got " ++ to_string (query_status q)
                ++ " expected " ++ to_string status))).
Proof.
  intros Hc Hclose Hc1 Hquery Herr.
  rewrite (CloseSocket_closed _ _ _ _ _ _ Hc Hclose Hc1). cbn.
  rewrite Hquery. cbn. rewrite Herr. cbn.
  destruct (Z.eqb_spec (query_status q) status) as [Heq | Hne].
  - split; [tauto | contradiction].
  - split; [| reflexivity]. split; [discriminate | contradiction].
Qed.

(** ** Cancellation *)

(** C6: with a context whose effective deadline has passed or whose
    effective cancellation flag is set, [SendFrame], [ReceiveFrame] and
    [CloseSocket] each throw Cancelled at their first check: no native call
    is made and neither the object nor the world changes. *)
Theorem cancelled_context_fails_before_native_io
    (context : Context) (self : WinHttpWebSocketTransport) (w : World)
    (frameType : WebSocketFrameType) (frameData : list byte)
    (status : uint16_t) (disconnectReason : string) :
  EffectiveDeadlinePassed context w = true \/ EffectiveFlagSet context w = true ->
  fails_at_first_check self w (SendFrame frameType frameData context self w) /\
  fails_at_first_check self w (ReceiveFrame context self w) /\
  fails_at_first_check self w (CloseSocket status disconnectReason context self w).
Proof.
  intros H. apply IsCancelled_of_parts in H.
  rewrite (SendFrame_cancelled _ _ _ _ _ H), (ReceiveFrame_cancelled _ _ _ H),
    (CloseSocket_cancelled _ _ _ _ _ H).
  unfold fails_at_first_check. cbn. tauto.
Qed.

(** ** Receiving *)

(** C8: whenever [ReceiveFrame] returns normally, the vector it returns is
    as long as the byte count the native receive reported: the staging
    buffer has been resized to exactly that count. *)
Theorem ReceiveFrame_length_is_bytes_read
    (context : Context) (self : WinHttpWebSocketTransport) (w : World)
    (frameTypeReceived : WebSocketFrameType) (buffer : list byte) :
  outcome (ReceiveFrame context self w) = Returned (frameTypeReceived, buffer) ->
  List.length buffer = Z.to_nat (recv_bytesRead (fst (native_receive self w))).
Proof.
  destruct (IsCancelled context w) eqn:Hc.
  - rewrite (ReceiveFrame_cancelled _ _ _ Hc). discriminate.
  - rewrite (ReceiveFrame_received _ _ _ Hc). cbn.
    destruct (receive_failed _); [discriminate |].
    destruct (ReceiveFrame_frameType _); [| discriminate].
    intros H. injection H as _ <-. apply received_buffer_length.
Qed.

(** When the native call stored the first bytes of a payload longer than
    the staging buffer and reported a byte count within the buffer, the
    resized buffer is the payload's prefix of that length. *)
Lemma received_buffer_prefix (out : ReceiveOut) (payload : list byte) :
  (128 < List.length payload)%nat ->
  recv_stored out = firstn 128 payload ->
  0 <= recv_bytesRead out <= 128 ->
  received_buffer out = firstn (Z.to_nat (recv_bytesRead out)) payload.
Proof.
  intros Hlong Hstored Hn. unfold received_buffer. rewrite Hstored.
  assert (Hv : List.length (store (vector_of_size 128) (firstn 128 payload))
               = 128%nat).
  { rewrite store_length. apply repeat_length. }
  rewrite resize_prefix by lia.
  unfold store, vector_of_size.
  rewrite repeat_length, length_firstn.
  replace (Nat.min 128 (List.length payload)) with 128%nat by lia.
  rewrite firstn_firstn, Nat.min_id.
  rewrite firstn_app, length_firstn.
  replace (Nat.min 128 (List.length payload)) with 128%nat by lia.
  replace (Z.to_nat (recv_bytesRead out) - 128)%nat with 0%nat by lia.
  rewrite firstn_firstn. cbn. rewrite app_nil_r.
  f_equal. lia.
Qed.

(** C9 (amended): when the native receive reports ERROR_INSUFFICIENT_BUFFER,
    [ReceiveFrame] does not take it for a failure and does not read again:
    it has made the one native receive, with the 128-byte buffer, and goes
    on as after a receive that succeeded.  It throws the protocol error when
    the wire type reported is not a recognized one, and otherwise returns the
    staging buffer resized to the byte count reported, whatever that count
    is; when the native call stored the first bytes of a payload longer than
    128 bytes and reported a count of at most 128, what is returned is the
    payload's prefix of that length. *)
Theorem ReceiveFrame_insufficient_buffer_is_not_an_error
    (context : Context) (self : WinHttpWebSocketTransport) (w : World) :
  IsCancelled context w = false ->
  recv_err (fst (native_receive self w)) = ERROR_INSUFFICIENT_BUFFER ->
  events (ReceiveFrame context self w)
  = [EvThrowIfCancelled; EvLock m_receiveMutex;
     EvWinHttpWebSocketReceive (m_socketHandle self) 128;
     EvUnlock m_receiveMutex] /\
  outcome (ReceiveFrame context self w)
  = match ReceiveFrame_frameType
            (recv_bufferType (fst (native_receive self w))) with
    | Some frameTypeReceived =>
        Returned (frameTypeReceived,
                  resize (Z.to_nat (recv_bytesRead (fst (native_receive self w))))
                    (store (vector_of_size 128)
                       (recv_stored (fst (native_receive self w)))))
    | None => Thrown (runtime_error "Unknown frame type.")
    end /\
  List.length
    (resize (Z.to_nat (recv_bytesRead (fst (native_receive self w))))
       (store (vector_of_size 128) (recv_stored (fst (native_receive self w)))))
  = Z.to_nat (recv_bytesRead (fst (native_receive self w))) /\
  (forall payload : list byte,
     (128 < List.length payload)%nat ->
     recv_stored (fst (native_receive self w)) = firstn 128 payload ->
     0 <= recv_bytesRead (fst (native_receive self w)) <= 128 ->
     resize (Z.to_nat (recv_bytesRead (fst (native_receive self w))))
       (store (vector_of_size 128) (recv_stored (fst (native_receive self w))))
     = firstn (Z.to_nat (recv_bytesRead (fst (native_receive self w)))) payload).
Proof.
  intros Hc Herr.
  rewrite (ReceiveFrame_received _ _ _ Hc). cbn [outcome events].
  unfold receive_failed, receive_events. cbv zeta. rewrite Herr.
  change (negb (ERROR_INSUFFICIENT_BUFFER =? 0)
          && negb (ERROR_INSUFFICIENT_BUFFER =? ERROR_INSUFFICIENT_BUFFER))
    with false.
  split; [reflexivity | split; [| split]].
  - destruct (ReceiveFrame_frameType _); reflexivity.
  - apply resize_length.
  - intros payload Hlong Hstored Hn.
    exact (received_buffer_prefix _ payload Hlong Hstored Hn).
Qed.

(** ** Frame types *)

(** C5: once the cancellation check has passed, [SendFrame] throws the
    protocol error exactly for the frame types outside Text, Binary,
    TextFragment and BinaryFragment, and does so without a native call; and
    once the native receive has not failed, [ReceiveFrame] throws the
    protocol error exactly for the wire buffer types outside the five
    recognized ones. *)
Theorem frame_type_translation_rejects_exactly_unknown
    (frameType : WebSocketFrameType) (frameData : list byte)
    (context : Context) (self : WinHttpWebSocketTransport) (w : World)
    (context2 : Context) (self2 : WinHttpWebSocketTransport) (w2 : World) :
  IsCancelled context w = false ->
  IsCancelled context2 w2 = false ->
  receive_failed (fst (native_receive self2 w2)) = false ->
  (isProtocolError (outcome (SendFrame frameType frameData context self w)) = true
   <-> ~ In frameType sendable) /\
  (~ In frameType sendable ->
   outcome (SendFrame frameType frameData context self w)
     = Thrown (runtime_error "Unknown frame type.") /\
   existsb touchesNative (events (SendFrame frameType frameData context self w))
     = false) /\
  (isProtocolError (outcome (ReceiveFrame context2 self2 w2)) = true
   <-> ~ In (recv_bufferType (fst (native_receive self2 w2))) recognized) /\
  (~ In (recv_bufferType (fst (native_receive self2 w2))) recognized ->
   outcome (ReceiveFrame context2 self2 w2)
     = Thrown (runtime_error "Unknown frame type.")).
Proof.
  intros Hc Hc2 Hok.
  assert (Hsend : SendFrame_bufferType frameType = None <-> ~ In frameType sendable).
  { unfold sendable. destruct frameType; cbn; split; intros H;
      try discriminate; try reflexivity; try (exfalso; apply H; tauto).
    intros [E | [E | [E | [E | []]]]]; discriminate. }
  assert (Hrecv : ReceiveFrame_frameType
                    (recv_bufferType (fst (native_receive self2 w2))) = None
                  <-> ~ In (recv_bufferType (fst (native_receive self2 w2)))
                           recognized).
  { generalize (recv_bufferType (fst (native_receive self2 w2))). intros b.
    unfold ReceiveFrame_frameType, recognized.
    unfold WINHTTP_WEB_SOCKET_UTF8_MESSAGE_BUFFER_TYPE,
      WINHTTP_WEB_SOCKET_BINARY_MESSAGE_BUFFER_TYPE,
      WINHTTP_WEB_SOCKET_BINARY_FRAGMENT_BUFFER_TYPE,
      WINHTTP_WEB_SOCKET_UTF8_FRAGMENT_BUFFER_TYPE,
      WINHTTP_WEB_SOCKET_CLOSE_BUFFER_TYPE.
    cbn [In].
    destruct (Z.eqb_spec b 2); [split; [discriminate | intros H; exfalso; apply H; auto] |].
    destruct (Z.eqb_spec b 0); [split; [discriminate | intros H; exfalso; apply H; auto] |].
    destruct (Z.eqb_spec b 1); [split; [discriminate | intros H; exfalso; apply H; auto] |].
    destruct (Z.eqb_spec b 3); [split; [discriminate | intros H; exfalso; apply H; auto] |].
    destruct (Z.eqb_spec b 4); [split; [discriminate | intros H; exfalso; apply H; auto 6] |].
    split; [| reflexivity]. intros _ H. intuition congruence. }
  destruct (SendFrame_bufferType frameType) as [b |] eqn:Hb.
  - rewrite (SendFrame_sent _ _ _ _ _ _ Hc Hb). cbn.
    assert (Hin : ~ ~ In frameType sendable).
    { intros Hn. apply Hsend in Hn. discriminate. }
    split; [| split; [intros Hn; contradiction |]].
    + split; [| intros Hn; contradiction].
      destruct (fst (native_send frameData b self w) =? 0); discriminate.
    + rewrite (ReceiveFrame_received _ _ _ Hc2). cbn. rewrite Hok.
      destruct (ReceiveFrame_frameType _) eqn:Hr; cbn.
      * split; [split; [discriminate |] |]; intros Hn; apply Hrecv in Hn;
          discriminate.
      * split; [split; [intros _ |]; [apply Hrecv |]; reflexivity | reflexivity].
  - rewrite (SendFrame_unknown _ _ _ _ _ Hc Hb). cbn.
    split; [split; [intros _; apply Hsend |]; reflexivity |].
    split; [intros _; split; reflexivity |].
    rewrite (ReceiveFrame_received _ _ _ Hc2). cbn. rewrite Hok.
    destruct (ReceiveFrame_frameType _) eqn:Hr; cbn.
    + split; [split; [discriminate |] |]; intros Hn; apply Hrecv in Hn;
        discriminate.
    + split; [split; [intros _ |]; [apply Hrecv |]; reflexivity | reflexivity].
Qed.

(** ** The handle over a channel's lifetime *)

Lemma keeps_handle_ret {A} (a : A) : keeps_handle (@ret World A a).
Proof. intros self w. split; reflexivity. Qed.

Lemma keeps_handle_throw {A} (e : Exception) : keeps_handle (@throw World A e).
Proof. intros self w. split; reflexivity. Qed.

Lemma keeps_handle_emit (e : Event) :
  isRelease e = false -> keeps_handle (@emit World e).
Proof. intros He self w. cbn. rewrite He. split; reflexivity. Qed.

Lemma keeps_handle_native {A} (f : World -> A * World) : keeps_handle (native f).
Proof. intros self w. split; reflexivity. Qed.

Lemma keeps_handle_observe {A} (f : World -> A) : keeps_handle (observe f).
Proof. intros self w. split; reflexivity. Qed.

Lemma keeps_handle_get : keeps_handle (@get_socketHandle World).
Proof. intros self w. split; reflexivity. Qed.

Lemma keeps_handle_bind {A B} (m : M World A) (k : A -> M World B) :
  keeps_handle m -> (forall a, keeps_handle (k a)) -> keeps_handle (bind m k).
Proof.
  intros Hm Hk self w. unfold bind.
  destruct (Hm self w) as [Hs Hev].
  destruct (m self w) as [[a | e] s1 w1 ev]; cbn in *.
  - subst s1. destruct (Hk a self w1) as [Hs' Hev'].
    rewrite filter_app, Hev, Hev'. auto.
  - auto.
Qed.

Lemma keeps_handle_lock_guard {A} (mutex : Mutex) (body : M World A) :
  keeps_handle body -> keeps_handle (lock_guard mutex body).
Proof.
  intros Hb self w. destruct (Hb self w) as [Hs Hev].
  unfold lock_guard, bracket. cbn. rewrite filter_app, Hev. auto.
Qed.

Lemma keeps_handle_attempt {A} (m : M World A) :
  keeps_handle m -> keeps_handle (attempt m).
Proof. intros Hm self w. exact (Hm self w). Qed.

Create HintDb keeps.
#[local] Hint Resolve keeps_handle_ret keeps_handle_throw keeps_handle_native
  keeps_handle_observe keeps_handle_get keeps_handle_lock_guard
  keeps_handle_attempt : keeps.

Ltac keeps :=
  repeat first
    [ apply keeps_handle_bind; [| intros ?]
    | apply keeps_handle_lock_guard
    | progress cbv zeta
    | apply keeps_handle_emit; reflexivity
    | solve [auto with keeps]
    | match goal with
      | |- keeps_handle (if ?c then _ else _) => destruct c
      | |- keeps_handle (match ?o with Some _ => _ | None => _ end) => destruct o
      end ].

Lemma ThrowIfCancelled_keeps_handle context :
  keeps_handle (ThrowIfCancelled context).
Proof. unfold ThrowIfCancelled. keeps. Qed.

#[local] Hint Resolve ThrowIfCancelled_keeps_handle : keeps.

Lemma SendFrame_keeps_handle frameType frameData context :
  keeps_handle (SendFrame frameType frameData context).
Proof. unfold SendFrame, GetErrorAndThrow. keeps. Qed.

Lemma ReceiveFrame_keeps_handle context :
  keeps_handle (ReceiveFrame context).
Proof. unfold ReceiveFrame, GetErrorAndThrow. keeps. Qed.

Lemma GetCloseSocketInformation_keeps_handle context :
  keeps_handle (GetCloseSocketInformation context).
Proof. unfold GetCloseSocketInformation, GetErrorAndThrow. keeps. Qed.

#[local] Hint Resolve GetCloseSocketInformation_keeps_handle : keeps.

Lemma CloseSocket_keeps_handle status disconnectReason context :
  keeps_handle (CloseSocket status disconnectReason context).
Proof. unfold CloseSocket, GetErrorAndThrow. keeps. Qed.

(** Once the handle is released, no call releases anything or brings a
    handle back. *)
Lemma call_released (c : Call) self w :
  m_socketHandle self = NULL ->
  self' (call c self w) = self /\ filter isRelease (events (call c self w)) = [].
Proof.
  intros Hh. destruct c; cbn [call].
  - apply keeps_handle_attempt, SendFrame_keeps_handle.
  - apply keeps_handle_attempt, ReceiveFrame_keeps_handle.
  - apply keeps_handle_attempt, GetCloseSocketInformation_keeps_handle.
  - apply keeps_handle_attempt, CloseSocket_keeps_handle.
  - split; reflexivity.
  - unfold attempt. rewrite (Close_released _ _ Hh). split; reflexivity.
Qed.

Lemma calls_released (cs : list Call) self w :
  m_socketHandle self = NULL ->
  self' (calls cs self w) = self /\ filter isRelease (events (calls cs self w)) = [].
Proof.
  revert w. induction cs as [| c cs IH]; intros w Hh; cbn [calls].
  - split; reflexivity.
  - destruct (call_released c self w Hh) as [Hs Hev].
    unfold bind.
    destruct (call c self w) as [[[] | e] s1 w1 ev] eqn:E; cbn in *.
    + subst s1. destruct (IH w1 Hh) as [Hs' Hev'].
      rewrite filter_app, Hev, Hev'. auto.
    + auto.
Qed.

Lemma call_outcome (c : Call) self w : outcome (call c self w) = Returned tt.
Proof. destruct c; reflexivity. Qed.

Lemma calls_release_at_most_once (cs : list Call) self w :
  (releases (events (calls cs self w)) <= 1)%nat.
Proof.
  revert self w. induction cs as [| c cs IH]; intros self w; cbn [calls].
  - cbn. lia.
  - unfold bind. pose proof (call_outcome c self w) as Ho.
    destruct (Z.eq_dec (m_socketHandle self) NULL) as [Hh | Hh].
    + destruct (call_released c self w Hh) as [Hs Hev].
      destruct (call c self w) as [o s1 w1 ev]; cbn in *. subst o s1.
      cbn. unfold releases. rewrite filter_app, Hev. apply IH.
    + assert (Hc : (self' (call c self w) = self
                    /\ filter isRelease (events (call c self w)) = [])
                   \/ c = CallClose).
      { destruct c; cbn [call]; [left | left | left | left | left | right].
        - apply keeps_handle_attempt, SendFrame_keeps_handle.
        - apply keeps_handle_attempt, ReceiveFrame_keeps_handle.
        - apply keeps_handle_attempt, GetCloseSocketInformation_keeps_handle.
        - apply keeps_handle_attempt, CloseSocket_keeps_handle.
        - split; reflexivity.
        - reflexivity. }
      destruct Hc as [[Hs Hev] | ->].
      * destruct (call c self w) as [o s1 w1 ev]; cbn in *. subst o s1.
        cbn. unfold releases. rewrite filter_app, Hev. apply IH.
      * cbn [call]. unfold attempt. rewrite (Close_open _ _ Hh). cbn.
        unfold releases. cbn.
        destruct (calls_released cs {| m_socketHandle := NULL |}
                    (WinHttpCloseHandle (m_socketHandle self) w) eq_refl)
          as [_ Hev].
        rewrite Hev. cbn. lia.
Qed.

(** C7: the first [Close] on an open channel returns normally and releases
    the handle; a [Close] made at any later point returns normally, releases
    nothing and changes nothing; and over any sequence of calls the handle
    is released at most once. *)
Theorem Close_releases_handle_once
    (self : WinHttpWebSocketTransport) (w : World)
    (between lifetime : list Call) :
  m_socketHandle self <> NULL ->
  outcome (Close self w) = Returned tt /\
  events (Close self w) = [EvWinHttpCloseHandle (m_socketHandle self)] /\
  Close (self' (calls between (self' (Close self w)) (world' (Close self w))))
        (world' (calls between (self' (Close self w)) (world' (Close self w))))
  = {| outcome := Returned tt;
       self' := self' (calls between (self' (Close self w)) (world' (Close self w)));
       world' := world' (calls between (self' (Close self w)) (world' (Close self w)));
       events := [] |} /\
  (releases (events (calls lifetime self w)) <= 1)%nat.
Proof.
  intros Hh. split; [| split; [| split]].
  - rewrite (Close_open _ _ Hh). reflexivity.
  - rewrite (Close_open _ _ Hh). reflexivity.
  - apply Close_released.
    destruct (calls_released between (self' (Close self w))
                (world' (Close self w)) (Close_leaves_null self w)) as [-> _].
    apply Close_leaves_null.
  - apply calls_release_at_most_once.
Qed.

(** ** Calls on a closed channel *)

(** C3 (amended): after [Close] the stored handle is null, and a later
    [SendFrame] of a sendable frame type or [ReceiveFrame], with a context
    that is not cancelled, makes no closed-channel check: it passes the null
    handle to the native call and goes on as on an open channel.
    [SendFrame] returns normally when the native send reports 0 and throws
    the transport error with the native code otherwise; [ReceiveFrame]
    throws the transport error with the native code when the native receive
    reports an error other than ERROR_INSUFFICIENT_BUFFER, otherwise the
    protocol error when the wire type reported is not recognized, and
    otherwise returns the frame. *)
Theorem closed_channel_calls_pass_null_handle
    (self : WinHttpWebSocketTransport) (w : World)
    (frameType : WebSocketFrameType)
    (bufferType : WINHTTP_WEB_SOCKET_BUFFER_TYPE)
    (frameData : list byte) (context : Context) :
  IsCancelled context (world' (Close self w)) = false ->
  SendFrame_bufferType frameType = Some bufferType ->
  m_socketHandle (self' (Close self w)) = NULL /\
  events (SendFrame frameType frameData context
            (self' (Close self w)) (world' (Close self w)))
  = [EvThrowIfCancelled; EvLock m_sendMutex;
     EvWinHttpWebSocketSend NULL bufferType frameData
       (to_DWORD (Z.of_nat (List.length frameData)));
     EvUnlock m_sendMutex] /\
  outcome (SendFrame frameType frameData context
             (self' (Close self w)) (world' (Close self w)))
  = (if fst (WinHttpWebSocketSend NULL bufferType frameData
               (to_DWORD (Z.of_nat (List.length frameData)))
               (world' (Close self w))) =? 0
     then Returned tt
     else Thrown (TransportException "WinHttpWebSocketSend() failed"
                    (fst (WinHttpWebSocketSend NULL bufferType frameData
                            (to_DWORD (Z.of_nat (List.length frameData)))
                            (world' (Close self w)))))) /\
  events (ReceiveFrame context (self' (Close self w)) (world' (Close self w)))
  = [EvThrowIfCancelled; EvLock m_receiveMutex;
     EvWinHttpWebSocketReceive NULL 128; EvUnlock m_receiveMutex] /\
  outcome (ReceiveFrame context (self' (Close self w)) (world' (Close self w)))
  = (if receive_failed
          (fst (WinHttpWebSocketReceive NULL 128 (world' (Close self w))))
     then Thrown (TransportException "WinHttpWebSocketReceive() failed"
                    (recv_err (fst (WinHttpWebSocketReceive NULL 128
                                      (world' (Close self w))))))
     else match ReceiveFrame_frameType
                  (recv_bufferType
                     (fst (WinHttpWebSocketReceive NULL 128
                             (world' (Close self w))))) with
          | Some frameTypeReceived =>
              Returned (frameTypeReceived,
                        received_buffer
                          (fst (WinHttpWebSocketReceive NULL 128
                                  (world' (Close self w)))))
          | None => Thrown (runtime_error "Unknown frame type.")
          end).
Proof.
  intros Hc Hb.
  pose proof (Close_leaves_null self w) as Hnull.
  rewrite (SendFrame_sent _ _ _ _ _ _ Hc Hb), (ReceiveFrame_received _ _ _ Hc).
  unfold send_events, receive_events, native_send, native_receive.
  rewrite Hnull. cbn [outcome events].
  repeat split.
Qed.

(** ** Where the cancellation checks are *)

(** C2 (amended): in [SendFrame], [ReceiveFrame] and the close-status
    query, the native call comes directly after a cancellation check, only
    the mutex being taken in between, and no cancellation check comes after
    it; once the entry check has passed the call cannot end in Cancelled,
    whatever is requested while the native call blocks. *)
Theorem native_io_checked_before_never_after
    (frameType : WebSocketFrameType) (frameData : list byte)
    (context : Context) (self : WinHttpWebSocketTransport) (w : World) :
  (checkedBefore false
     (io_steps (events (SendFrame frameType frameData context self w))) = true /\
   neverCheckedAfter (events (SendFrame frameType frameData context self w))
   = true) /\
  (checkedBefore false (io_steps (events (ReceiveFrame context self w))) = true /\
   neverCheckedAfter (events (ReceiveFrame context self w)) = true) /\
  (checkedBefore false
     (io_steps (events (GetCloseSocketInformation context self w))) = true /\
   neverCheckedAfter (events (GetCloseSocketInformation context self w)) = true) /\
  (IsCancelled context w = false ->
   outcome (SendFrame frameType frameData context self w)
     <> Thrown OperationCancelledException /\
   outcome (ReceiveFrame context self w) <> Thrown OperationCancelledException /\
   outcome (GetCloseSocketInformation context self w)
     <> Thrown OperationCancelledException).
Proof.
  destruct (IsCancelled context w) eqn:Hc.
  - rewrite (SendFrame_cancelled _ _ _ _ _ Hc), (ReceiveFrame_cancelled _ _ _ Hc),
      (GetCloseSocketInformation_cancelled _ _ _ Hc).
    cbn. split; [| split; [| split]]; try (split; reflexivity). discriminate.
  - rewrite (ReceiveFrame_received _ _ _ Hc),
      (GetCloseSocketInformation_queried _ _ _ Hc).
    destruct (SendFrame_bufferType frameType) as [b |] eqn:Hb.
    + rewrite (SendFrame_sent _ _ _ _ _ _ Hc Hb). cbn.
      split; [| split; [| split]]; try (split; reflexivity).
      intros _. split; [| split].
      * destruct (fst (native_send frameData b self w) =? 0); discriminate.
      * destruct (receive_failed _); [discriminate |].
        destruct (ReceiveFrame_frameType _); discriminate.
      * destruct (query_err _ =? 0); discriminate.
    + rewrite (SendFrame_unknown _ _ _ _ _ Hc Hb). cbn.
      split; [| split; [| split]]; try (split; reflexivity).
      intros _. split; [| split].
      * discriminate.
      * destruct (receive_failed _); [discriminate |].
        destruct (ReceiveFrame_frameType _); discriminate.
      * destruct (query_err _ =? 0); discriminate.
Qed.

(** ** Round trip *)

Lemma sendable_bufferType (frameType : WebSocketFrameType) :
  In frameType sendable ->
  exists bufferType,
    SendFrame_bufferType frameType = Some bufferType /\
    ReceiveFrame_frameType bufferType = Some frameType.
Proof.
  unfold sendable. cbn [In].
  intros [<- | [<- | [<- | [<- | []]]]]; eexists; split; reflexivity.
Qed.

(** Whatever [ReceiveFrame] returns, past its 128th byte the vector holds
    zero bytes only: a longer payload with another byte there cannot come
    back, whatever the native layer does. *)
Lemma ReceiveFrame_beyond_staging
    (context : Context) (self : WinHttpWebSocketTransport) (w : World)
    (frameTypeReceived : WebSocketFrameType) (buffer : list byte) (i : nat) :
  outcome (ReceiveFrame context self w) = Returned (frameTypeReceived, buffer) ->
  (128 <= i)%nat -> nth i buffer x00 = x00.
Proof.
  destruct (IsCancelled context w) eqn:Hc.
  - rewrite (ReceiveFrame_cancelled _ _ _ Hc). discriminate.
  - rewrite (ReceiveFrame_received _ _ _ Hc). cbn.
    destruct (receive_failed _); [discriminate |].
    destruct (ReceiveFrame_frameType _); [| discriminate].
    intros H. injection H as _ <-. apply received_buffer_beyond_staging.
Qed.

(** C4 (amended): for every frame type among Text, Binary, TextFragment and
    BinaryFragment and every payload of at most 128 bytes, [SendFrame] hands
    the native send the payload unchanged with a wire buffer type that
    [ReceiveFrame] classifies back to the same frame type, and when the
    native receive delivers that wire type and payload [ReceiveFrame]
    returns the same frame type and payload. *)
Theorem frame_round_trip_within_staging_buffer
    (frameType : WebSocketFrameType) (payload : list byte)
    (context : Context) (sender : WinHttpWebSocketTransport) (w : World)
    (context2 : Context) (receiver : WinHttpWebSocketTransport) (w2 : World) :
  In frameType sendable ->
  (List.length payload <= 128)%nat ->
  IsCancelled context w = false ->
  IsCancelled context2 w2 = false ->
  exists bufferType,
    SendFrame_bufferType frameType = Some bufferType /\
    ReceiveFrame_frameType bufferType = Some frameType /\
    events (SendFrame frameType payload context sender w)
    = [EvThrowIfCancelled; EvLock m_sendMutex;
       EvWinHttpWebSocketSend (m_socketHandle sender) bufferType payload
         (Z.of_nat (List.length payload));
       EvUnlock m_sendMutex] /\
    (delivers (fst (native_receive receiver w2)) bufferType payload ->
     outcome (ReceiveFrame context2 receiver w2) = Returned (frameType, payload)).
Proof.
  intros Hin Hlen Hc Hc2.
  destruct (sendable_bufferType frameType Hin) as [b [Hb Hr]].
  exists b. split; [exact Hb | split; [exact Hr | split]].
  - rewrite (SendFrame_sent _ _ _ _ _ _ Hc Hb). cbn [events]. unfold send_events.
    unfold to_DWORD. rewrite Z.mod_small by lia. reflexivity.
  - intros [Herr [Hstored [Hn Htype]]].
    rewrite (ReceiveFrame_received _ _ _ Hc2). cbn [outcome].
    unfold receive_failed. rewrite Herr, Htype, Hr. cbn.
    rewrite (received_buffer_delivered _ payload Hstored Hn Hlen). reflexivity.
Qed.





(** No platform can make [ReceiveFrame] return a payload that has a nonzero
    byte past the staging buffer. *)
Lemma ReceiveFrame_never_returns
    (context : Context) (self : WinHttpWebSocketTransport) (w : World)
    (frameTypeReceived : WebSocketFrameType) (payload : list byte) (i : nat) :
  (128 <= i)%nat -> nth i payload x00 <> x00 ->
  outcome (ReceiveFrame context self w) <> Returned (frameTypeReceived, payload).
Proof.
  intros Hi Hnz H. apply Hnz.
  exact (ReceiveFrame_beyond_staging _ _ _ _ _ i H Hi).
Qed.

(** ** Mutexes *)

(** The mutex steps among a call's events. *)
Lemma lock_steps_of_calls
    (frameType : WebSocketFrameType) (frameData : list byte)
    (context : Context) (self : WinHttpWebSocketTransport) (w : World) :
  let locks (tr : list Event) := filter isLockStep tr in
  In (locks (events (SendFrame frameType frameData context self w)))
     [[]; [EvLock m_sendMutex; EvUnlock m_sendMutex]] /\
  In (locks (events (ReceiveFrame context self w)))
     [[]; [EvLock m_receiveMutex; EvUnlock m_receiveMutex]] /\
  In (locks (events (GetCloseSocketInformation context self w)))
     [[]; [EvLock m_receiveMutex; EvUnlock m_receiveMutex]].
Proof.
  cbv zeta. destruct (IsCancelled context w) eqn:Hc.
  - rewrite (SendFrame_cancelled _ _ _ _ _ Hc), (ReceiveFrame_cancelled _ _ _ Hc),
      (GetCloseSocketInformation_cancelled _ _ _ Hc).
    cbn. auto.
  - rewrite (ReceiveFrame_received _ _ _ Hc),
      (GetCloseSocketInformation_queried _ _ _ Hc).
    destruct (SendFrame_bufferType frameType) as [b |] eqn:Hb.
    + rewrite (SendFrame_sent _ _ _ _ _ _ Hc Hb). cbn. auto.
    + rewrite (SendFrame_unknown _ _ _ _ _ Hc Hb). cbn. auto.
Qed.



(** * Further properties of the member functions *)

(** ** The remaining paths of [CloseSocket] *)

Lemma CloseSocket_close_failed status disconnectReason context self w :
  IsCancelled context w = false ->
  fst (native_close status disconnectReason self w) <> 0 ->
  CloseSocket status disconnectReason context self w =
    {| outcome := Thrown (TransportException "WinHttpWebSocketClose() failed"
                            (fst (native_close status disconnectReason self w)));
       self' := self;
       world' := snd (native_close status disconnectReason self w);
       events := [EvThrowIfCancelled; close_event status disconnectReason self] |}.
Proof.
  intros Hc He. unfold CloseSocket.
  bind_with (ThrowIfCancelled_passes _ self w Hc).
  do 3 bind_step.
  fold (native_close status disconnectReason self w).
  apply Z.eqb_neq in He. rewrite He. bind_step. reflexivity.
Qed.

Lemma CloseSocket_cancelled_after_close status disconnectReason context self w w1 :
  IsCancelled context w = false ->
  native_close status disconnectReason self w = (0, w1) ->
  IsCancelled context w1 = true ->
  CloseSocket status disconnectReason context self w =
    {| outcome := Thrown OperationCancelledException;
       self' := self;
       world' := w1;
       events := [EvThrowIfCancelled; close_event status disconnectReason self;
                  EvThrowIfCancelled] |}.
Proof.
  intros Hc Hclose Hc1. unfold CloseSocket.
  bind_with (ThrowIfCancelled_passes _ self w Hc).
  do 3 bind_step.
  fold (native_close status disconnectReason self w). rewrite Hclose.
  cbn [fst snd]. bind_step.
  bind_with (ThrowIfCancelled_throws _ self w1 Hc1). reflexivity.
Qed.

(** X1: when [WinHttpWebSocketClose] reports an error, [CloseSocket] throws
    the transport error with that code and stops: it makes no second
    cancellation check, takes no mutex and does not query the close status. *)
Theorem CloseSocket_close_failure_skips_query
    (status : uint16_t) (disconnectReason : string) (context : Context)
    (self : WinHttpWebSocketTransport) (w : World) :
  IsCancelled context w = false ->
  fst (native_close status disconnectReason self w) <> 0 ->
  outcome (CloseSocket status disconnectReason context self w)
  = Thrown (TransportException "WinHttpWebSocketClose() failed"
              (fst (native_close status disconnectReason self w))) /\
  events (CloseSocket status disconnectReason context self w)
  = [EvThrowIfCancelled;
     EvWinHttpWebSocketClose (m_socketHandle self) status
       (reason_pointer disconnectReason) (reason_size disconnectReason)] /\
  world' (CloseSocket status disconnectReason context self w)
  = snd (native_close status disconnectReason self w).
Proof.
  intros Hc He. rewrite (CloseSocket_close_failed _ _ _ _ _ Hc He).
  repeat split.
Qed.

(** X2: when the context is cancelled while [WinHttpWebSocketClose] runs,
    [CloseSocket] throws Cancelled at its second check: the close has
    already been sent, and the peer's acknowledgement is never queried. *)
Theorem CloseSocket_cancelled_between_close_and_query
    (status : uint16_t) (disconnectReason : string) (context : Context)
    (self : WinHttpWebSocketTransport) (w w1 : World) :
  IsCancelled context w = false ->
  native_close status disconnectReason self w = (0, w1) ->
  IsCancelled context w1 = true ->
  outcome (CloseSocket status disconnectReason context self w)
  = Thrown OperationCancelledException /\
  events (CloseSocket status disconnectReason context self w)
  = [EvThrowIfCancelled;
     EvWinHttpWebSocketClose (m_socketHandle self) status
       (reason_pointer disconnectReason) (reason_size disconnectReason);
     EvThrowIfCancelled] /\
  world' (CloseSocket status disconnectReason context self w) = w1.
Proof.
  intros Hc Hclose Hc1.
  rewrite (CloseSocket_cancelled_after_close _ _ _ _ _ _ Hc Hclose Hc1).
  repeat split.
Qed.

(** X3: when the close was sent and [WinHttpWebSocketQueryCloseStatus]
    reports an error, [CloseSocket] throws the transport error with that
    code, whatever status the call left behind: the status comparison is
    not reached. *)
Theorem CloseSocket_query_failure
    (status : uint16_t) (disconnectReason : string) (context : Context)
    (self : WinHttpWebSocketTransport) (w w1 : World) :
  IsCancelled context w = false ->
  native_close status disconnectReason self w = (0, w1) ->
  IsCancelled context w1 = false ->
  query_err (fst (native_query self w1)) <> 0 ->
  outcome (CloseSocket status disconnectReason context self w)
  = Thrown (TransportException "WinHttpGetCloseStatus() failed"
              (query_err (fst (native_query self w1)))) /\
  events (CloseSocket status disconnectReason context self w)
  = [EvThrowIfCancelled;
     EvWinHttpWebSocketClose (m_socketHandle self) status
       (reason_pointer disconnectReason) (reason_size disconnectReason);
     EvThrowIfCancelled; EvThrowIfCancelled; EvLock m_receiveMutex;
     EvWinHttpWebSocketQueryCloseStatus (m_socketHandle self)
       WINHTTP_WEB_SOCKET_MAX_CLOSE_REASON_LENGTH;
     EvUnlock m_receiveMutex].
Proof.
  intros Hc Hclose Hc1 He.
  rewrite (CloseSocket_closed _ _ _ _ _ _ Hc Hclose Hc1). cbn.
  apply Z.eqb_neq in He. rewrite He. split; reflexivity.
Qed.

(** X4: [CloseSocket] returns normally exactly when the context is not
    cancelled on entry, the native close reports success, the context is
    still not cancelled after it, the close-status query reports success,
    and the status it yields equals the status sent. *)
Theorem CloseSocket_returns_iff
    (status : uint16_t) (disconnectReason : string) (context : Context)
    (self : WinHttpWebSocketTransport) (w : World) :
  outcome (CloseSocket status disconnectReason context self w) = Returned tt
  <->
  IsCancelled context w = false /\
  fst (native_close status disconnectReason self w) = 0 /\
  IsCancelled context (snd (native_close status disconnectReason self w)) = false /\
  query_err (fst (native_query self
                    (snd (native_close status disconnectReason self w)))) = 0 /\
  query_status (fst (native_query self
                       (snd (native_close status disconnectReason self w))))
  = status.
Proof.
  destruct (IsCancelled context w) eqn:Hc.
  { rewrite (CloseSocket_cancelled _ _ _ _ _ Hc). cbn.
    split; [discriminate | intros [H _]; discriminate]. }
  destruct (native_close status disconnectReason self w) as [err w1] eqn:Hclose.
  cbn [fst snd].
  destruct (Z.eq_dec err 0) as [-> | He].
  2:{ assert (He' : fst (native_close status disconnectReason self w) <> 0)
        by (rewrite Hclose; exact He).
      rewrite (CloseSocket_close_failed _ _ _ _ _ Hc He'). cbn.
      split; [discriminate | intros [_ [H _]]; contradiction]. }
  destruct (IsCancelled context w1) eqn:Hc1.
  { rewrite (CloseSocket_cancelled_after_close _ _ _ _ _ _ Hc Hclose Hc1). cbn.
    split; [discriminate | intros [_ [_ [H _]]]; discriminate]. }
  rewrite (CloseSocket_closed _ _ _ _ _ _ Hc Hclose Hc1). cbn.
  destruct (Z.eqb_spec (query_err (fst (native_query self w1))) 0) as [Hq | Hq].
  - destruct (Z.eqb_spec (query_status (fst (native_query self w1))) status)
      as [Hs | Hs].
    + tauto.
    + split; [discriminate | intros [_ [_ [_ [_ H]]]]; contradiction].
  - split; [discriminate | intros [_ [_ [_ [H _]]]]; contradiction].
Qed.

(** ** The upgrade *)

Lemma m_socketHandle_reset_run (p : HINTERNET) self w :
  m_socketHandle_reset p self w =
    {| outcome := Returned tt;
       self' := {| m_socketHandle := p |};
       world' := (if m_socketHandle self =? NULL then w
                  else WinHttpCloseHandle (m_socketHandle self) w);
       events := (if m_socketHandle self =? NULL then []
                  else [EvWinHttpCloseHandle (m_socketHandle self)]) |}.
Proof.
  unfold m_socketHandle_reset. do 2 bind_step.
  destruct (m_socketHandle self =? NULL); [reflexivity |].
  unfold HINTERNET_deleter. bind_step. reflexivity.
Qed.

Lemma OnResponseReceived_run (requestHandle : HINTERNET) self w :
  OnResponseReceived requestHandle self w =
    {| outcome :=
         (if fst (WinHttpWebSocketCompleteUpgrade requestHandle w) =? NULL
          then Thrown (TransportException upgrade_failed_message
                 (GetLastError
                    (if m_socketHandle self =? NULL
                     then snd (WinHttpWebSocketCompleteUpgrade requestHandle w)
                     else WinHttpCloseHandle (m_socketHandle self)
                            (snd (WinHttpWebSocketCompleteUpgrade requestHandle w)))))
          else Returned tt);
       self' := {| m_socketHandle :=
                     fst (WinHttpWebSocketCompleteUpgrade requestHandle w) |};
       world' := (if m_socketHandle self =? NULL
                  then snd (WinHttpWebSocketCompleteUpgrade requestHandle w)
                  else WinHttpCloseHandle (m_socketHandle self)
                         (snd (WinHttpWebSocketCompleteUpgrade requestHandle w)));
       events := EvWinHttpWebSocketCompleteUpgrade requestHandle
                 :: (if m_socketHandle self =? NULL then []
                     else [EvWinHttpCloseHandle (m_socketHandle self)]) |}.
Proof.
  unfold OnResponseReceived. do 2 bind_step.
  bind_with (m_socketHandle_reset_run
               (fst (WinHttpWebSocketCompleteUpgrade requestHandle w)) self
               (snd (WinHttpWebSocketCompleteUpgrade requestHandle w))).
  bind_step. cbn [m_socketHandle].
  destruct (fst (WinHttpWebSocketCompleteUpgrade requestHandle w) =? NULL).
  - unfold GetLastErrorAndThrow. bind_step.
    destruct (m_socketHandle self =? NULL); reflexivity.
  - destruct (m_socketHandle self =? NULL); reflexivity.
Qed.

(** X5: when [WinHttpWebSocketCompleteUpgrade] returns a handle,
    [OnResponseReceived] returns normally and the object stores that handle;
    a handle the object stored before is closed, once, and no other handle
    is; a [Close] after it closes exactly the new handle. *)
Theorem OnResponseReceived_stores_upgraded_handle
    (requestHandle : HINTERNET) (self : WinHttpWebSocketTransport) (w : World) :
  fst (WinHttpWebSocketCompleteUpgrade requestHandle w) <> NULL ->
  outcome (OnResponseReceived requestHandle self w) = Returned tt /\
  m_socketHandle (self' (OnResponseReceived requestHandle self w))
  = fst (WinHttpWebSocketCompleteUpgrade requestHandle w) /\
  events (OnResponseReceived requestHandle self w)
  = EvWinHttpWebSocketCompleteUpgrade requestHandle
    :: (if m_socketHandle self =? NULL then []
        else [EvWinHttpCloseHandle (m_socketHandle self)]) /\
  events (Close (self' (OnResponseReceived requestHandle self w))
                (world' (OnResponseReceived requestHandle self w)))
  = [EvWinHttpCloseHandle (fst (WinHttpWebSocketCompleteUpgrade requestHandle w))].
Proof.
  intros Hh. rewrite (OnResponseReceived_run requestHandle self w).
  cbn [outcome self' world' events m_socketHandle].
  pose proof Hh as Hb. apply Z.eqb_neq in Hb. rewrite Hb.
  split; [reflexivity | split; [reflexivity | split; [reflexivity |]]].
  rewrite Close_open by exact Hh. reflexivity.
Qed.

(** X6: when [WinHttpWebSocketCompleteUpgrade] returns null,
    [OnResponseReceived] throws the transport error with the code of
    [GetLastError] and leaves the object without a handle: a handle stored
    before has been closed, and a [Close] after it does nothing. *)
Theorem OnResponseReceived_failure_leaves_no_handle
    (requestHandle : HINTERNET) (self : WinHttpWebSocketTransport) (w : World) :
  fst (WinHttpWebSocketCompleteUpgrade requestHandle w) = NULL ->
  outcome (OnResponseReceived requestHandle self w)
  = Thrown (TransportException
              "Error Upgrading HttpRequest handle to WebSocket handle."
              (GetLastError (world' (OnResponseReceived requestHandle self w)))) /\
  m_socketHandle (self' (OnResponseReceived requestHandle self w)) = NULL /\
  events (OnResponseReceived requestHandle self w)
  = EvWinHttpWebSocketCompleteUpgrade requestHandle
    :: (if m_socketHandle self =? NULL then []
        else [EvWinHttpCloseHandle (m_socketHandle self)]) /\
  Close (self' (OnResponseReceived requestHandle self w))
        (world' (OnResponseReceived requestHandle self w))
  = {| outcome := Returned tt;
       self' := self' (OnResponseReceived requestHandle self w);
       world' := world' (OnResponseReceived requestHandle self w);
       events := [] |}.
Proof.
  intros Hh. rewrite (OnResponseReceived_run requestHandle self w).
  cbn [outcome self' world' events m_socketHandle].
  rewrite Hh. cbn [Z.eqb NULL].
  split; [reflexivity | split; [reflexivity | split; [reflexivity |]]].
  apply Close_released. reflexivity.
Qed.

(** ** Handles over a lifetime with upgrades *)

Lemma lifetime_call_outcome (c : LifetimeCall) self w :
  outcome (lifetime_call c self w) = Returned tt.
Proof. destruct c as [r | c]; [reflexivity | apply call_outcome]. Qed.

(** What one call closes: the stored handle, when the call drops it and it
    is not null; nothing otherwise. *)
Lemma lifetime_call_closes (c : LifetimeCall) self w :
  filter isRelease (events (lifetime_call c self w))
  = map EvWinHttpCloseHandle
      (if drops_stored_handle c && negb (m_socketHandle self =? NULL)
       then [m_socketHandle self] else []).
Proof.
  destruct c as [requestHandle | c]; cbn [lifetime_call drops_stored_handle].
  - unfold attempt. rewrite (OnResponseReceived_run requestHandle self w).
    cbn [events andb].
    destruct (m_socketHandle self =? NULL); reflexivity.
  - destruct c; cbn [call andb].
    + apply keeps_handle_attempt, SendFrame_keeps_handle.
    + apply keeps_handle_attempt, ReceiveFrame_keeps_handle.
    + apply keeps_handle_attempt, GetCloseSocketInformation_keeps_handle.
    + apply keeps_handle_attempt, CloseSocket_keeps_handle.
    + reflexivity.
    + unfold attempt.
      destruct (Z.eqb_spec (m_socketHandle self) NULL) as [Hh | Hh].
      * rewrite (Close_released _ _ Hh). reflexivity.
      * rewrite (Close_open _ _ Hh). reflexivity.
Qed.

(** X7: over any sequence of upgrades and other member calls, from any
    state and whatever each call's outcome, the handles closed are exactly,
    in order, the non-null handles that were stored when a [Close] or an
    [OnResponseReceived] was called: each such call closes the handle
    stored at that moment once, and nothing else is ever closed. *)
Theorem lifetime_closes_exactly_the_dropped_handles
    (cs : list LifetimeCall) (self : WinHttpWebSocketTransport) (w : World) :
  filter isRelease (events (lifetime cs self w))
  = map EvWinHttpCloseHandle (dropped_handles cs self w).
Proof.
  revert self w. induction cs as [| c cs IH]; intros self w;
    cbn [lifetime dropped_handles].
  - reflexivity.
  - unfold bind.
    pose proof (lifetime_call_outcome c self w) as Ho.
    pose proof (lifetime_call_closes c self w) as Hc.
    destruct (lifetime_call c self w) as [o s1 w1 ev].
    cbn [outcome events self' world'] in Ho, Hc |- *.
    subst o. cbn [prepend events self' world'].
    rewrite filter_app, map_app, Hc, IH. reflexivity.
Qed.

(** X8: [SendFrame], [ReceiveFrame], [GetCloseSocketInformation] and
    [CloseSocket] never change the stored handle and never close a handle,
    whatever their outcome: after a completed close handshake the handle is
    still the object's, to be closed by [Close]. *)
Theorem member_functions_keep_the_handle
    (frameType : WebSocketFrameType) (frameData : list byte)
    (status : uint16_t) (disconnectReason : string) (context : Context)
    (self : WinHttpWebSocketTransport) (w : World) :
  (self' (SendFrame frameType frameData context self w) = self /\
   releases (events (SendFrame frameType frameData context self w)) = 0%nat) /\
  (self' (ReceiveFrame context self w) = self /\
   releases (events (ReceiveFrame context self w)) = 0%nat) /\
  (self' (GetCloseSocketInformation context self w) = self /\
   releases (events (GetCloseSocketInformation context self w)) = 0%nat) /\
  (self' (CloseSocket status disconnectReason context self w) = self /\
   releases (events (CloseSocket status disconnectReason context self w)) = 0%nat).
Proof.
  unfold releases.
  destruct (SendFrame_keeps_handle frameType frameData context self w) as [-> ->].
  destruct (ReceiveFrame_keeps_handle context self w) as [-> ->].
  destruct (GetCloseSocketInformation_keeps_handle context self w) as [-> ->].
  destruct (CloseSocket_keeps_handle status disconnectReason context self w)
    as [-> ->].
  repeat split.
Qed.

(** ** Outcomes of [SendFrame] and [ReceiveFrame], in the order they are decided *)

(** X9: the outcome of [SendFrame] is decided in this order: a cancelled
    context gives Cancelled even for an unknown frame type; otherwise an
    unknown frame type gives the protocol error; otherwise the native send
    decides, a nonzero result giving the transport error with that code. *)
Theorem SendFrame_outcome_order
    (frameType : WebSocketFrameType) (frameData : list byte)
    (context : Context) (self : WinHttpWebSocketTransport) (w : World) :
  outcome (SendFrame frameType frameData context self w) =
    if IsCancelled context w then Thrown OperationCancelledException
    else match SendFrame_bufferType frameType with
         | None => Thrown (runtime_error "Unknown frame type.")
         | Some bufferType =>
             if fst (WinHttpWebSocketSend (m_socketHandle self) bufferType
                       frameData (to_DWORD (Z.of_nat (List.length frameData))) w)
                =? 0
             then Returned tt
             else Thrown (TransportException "WinHttpWebSocketSend() failed"
                            (fst (WinHttpWebSocketSend (m_socketHandle self)
                                    bufferType frameData
                                    (to_DWORD (Z.of_nat (List.length frameData)))
                                    w)))
         end.
Proof.
  destruct (IsCancelled context w) eqn:Hc.
  - rewrite (SendFrame_cancelled _ _ _ _ _ Hc). reflexivity.
  - destruct (SendFrame_bufferType frameType) as [b |] eqn:Hb.
    + rewrite (SendFrame_sent _ _ _ _ _ _ Hc Hb). reflexivity.
    + rewrite (SendFrame_unknown _ _ _ _ _ Hc Hb). reflexivity.
Qed.

(** X10: the outcome of [ReceiveFrame] is decided in this order: a
    cancelled context gives Cancelled; otherwise a native error other than
    ERROR_INSUFFICIENT_BUFFER gives the transport error with that code, even
    when the reported wire type is unknown; otherwise an unknown wire type
    gives the protocol error; otherwise the frame type and the resized
    buffer are returned. *)
Theorem ReceiveFrame_outcome_order
    (context : Context) (self : WinHttpWebSocketTransport) (w : World) :
  outcome (ReceiveFrame context self w) =
    if IsCancelled context w then Thrown OperationCancelledException
    else
      let out := fst (WinHttpWebSocketReceive (m_socketHandle self) 128 w) in
      if negb (recv_err out =? 0)
         && negb (recv_err out =? ERROR_INSUFFICIENT_BUFFER)
      then Thrown (TransportException "WinHttpWebSocketReceive() failed"
                     (recv_err out))
      else match ReceiveFrame_frameType (recv_bufferType out) with
           | None => Thrown (runtime_error "Unknown frame type.")
           | Some frameTypeReceived =>
               Returned (frameTypeReceived,
                         resize (Z.to_nat (recv_bytesRead out))
                           (store (vector_of_size 128) (recv_stored out)))
           end.
Proof.
  destruct (IsCancelled context w) eqn:Hc.
  - rewrite (ReceiveFrame_cancelled _ _ _ Hc). reflexivity.
  - rewrite (ReceiveFrame_received _ _ _ Hc). cbn [outcome].
    unfold native_receive, receive_failed, received_buffer. cbv zeta.
    destruct (negb (recv_err _ =? 0) && negb (recv_err _ =? _)); [reflexivity |].
    destruct (ReceiveFrame_frameType _); reflexivity.
Qed.

(** ** The bytes [ReceiveFrame] returns *)

Lemma store_nth (m : nat) (data : list byte) (i : nat) :
  nth i (store (repeat x00 m) data) x00
  = if (i <? m)%nat && (i <? List.length data)%nat then nth i data x00 else x00.
Proof.
  unfold store. rewrite repeat_length.
  destruct (Nat.ltb_spec i m) as [Him | Him];
    destruct (Nat.ltb_spec i (List.length data)) as [Hid | Hid]; cbn [andb].
  - rewrite app_nth1 by (rewrite length_firstn; lia).
    rewrite nth_firstn. apply Nat.ltb_lt in Him. rewrite Him. reflexivity.
  - rewrite app_nth2 by (rewrite length_firstn; lia).
    rewrite nth_skipn. apply nth_repeat.
  - rewrite app_nth2 by (rewrite length_firstn; lia).
    rewrite nth_skipn. apply nth_repeat.
  - rewrite app_nth2 by (rewrite length_firstn; lia).
    rewrite nth_skipn. apply nth_repeat.
Qed.

Lemma resize_nth (n : nat) (v : list byte) (i : nat) :
  nth i (resize n v) x00
  = if (i <? n)%nat && (i <? List.length v)%nat then nth i v x00 else x00.
Proof.
  unfold resize.
  destruct (Nat.ltb_spec i n) as [Hin | Hin];
    destruct (Nat.ltb_spec i (List.length v)) as [Hiv | Hiv]; cbn [andb].
  - rewrite app_nth1 by (rewrite length_firstn; lia).
    rewrite nth_firstn. apply Nat.ltb_lt in Hin. rewrite Hin. reflexivity.
  - rewrite app_nth2 by (rewrite length_firstn; lia). apply nth_repeat.
  - rewrite app_nth2 by (rewrite length_firstn; lia). apply nth_repeat.
  - rewrite app_nth2 by (rewrite length_firstn; lia). apply nth_repeat.
Qed.

(** X11: every byte of the vector [ReceiveFrame] returns is either a byte
    the native receive stored, at the same index and within the first 128,
    or zero: where the reported byte count exceeds what was stored, or
    exceeds the 128-byte buffer, the vector is filled with zero bytes. *)
Theorem ReceiveFrame_bytes_are_stored_or_zero
    (context : Context) (self : WinHttpWebSocketTransport) (w : World)
    (frameTypeReceived : WebSocketFrameType) (buffer : list byte) (i : nat) :
  outcome (ReceiveFrame context self w) = Returned (frameTypeReceived, buffer) ->
  nth i buffer x00
  = if (i <? Z.to_nat (recv_bytesRead (fst (native_receive self w))))%nat
       && (i <? 128)%nat
       && (i <? List.length (recv_stored (fst (native_receive self w))))%nat
    then nth i (recv_stored (fst (native_receive self w))) x00
    else x00.
Proof.
  destruct (IsCancelled context w) eqn:Hc.
  - rewrite (ReceiveFrame_cancelled _ _ _ Hc). discriminate.
  - rewrite (ReceiveFrame_received _ _ _ Hc). cbn [outcome].
    destruct (receive_failed _); [discriminate |].
    destruct (ReceiveFrame_frameType _); [| discriminate].
    intros H. injection H as _ <-.
    unfold received_buffer, vector_of_size.
    rewrite resize_nth, store_length, repeat_length, store_nth.
    destruct (i <? Z.to_nat _)%nat; destruct (i <? 128)%nat;
      destruct (i <? List.length _)%nat; reflexivity.
Qed.

(** ** The two translations of frame types *)

(** X12: [ReceiveFrame]'s translation of a wire buffer type yields a frame
    type exactly when [SendFrame]'s translation of that frame type yields
    the wire buffer type, or the wire buffer type is the close type and the
    frame type is [FrameTypeClosed], which [SendFrame] does not translate:
    on the four message and fragment types the two are inverse to each
    other. *)
Theorem frame_type_translations_inverse
    (bufferType : WINHTTP_WEB_SOCKET_BUFFER_TYPE) (frameType : WebSocketFrameType) :
  ReceiveFrame_frameType bufferType = Some frameType
  <->
  SendFrame_bufferType frameType = Some bufferType
  \/ (bufferType = WINHTTP_WEB_SOCKET_CLOSE_BUFFER_TYPE
      /\ frameType = FrameTypeClosed
      /\ SendFrame_bufferType frameType = None).
Proof.
  unfold ReceiveFrame_frameType, SendFrame_bufferType,
    WINHTTP_WEB_SOCKET_UTF8_MESSAGE_BUFFER_TYPE,
    WINHTTP_WEB_SOCKET_BINARY_MESSAGE_BUFFER_TYPE,
    WINHTTP_WEB_SOCKET_BINARY_FRAGMENT_BUFFER_TYPE,
    WINHTTP_WEB_SOCKET_UTF8_FRAGMENT_BUFFER_TYPE,
    WINHTTP_WEB_SOCKET_CLOSE_BUFFER_TYPE.
  split.
  - destruct (Z.eqb_spec bufferType 2) as [-> |];
      [intros H; injection H as <-; auto |].
    destruct (Z.eqb_spec bufferType 0) as [-> |];
      [intros H; injection H as <-; auto |].
    destruct (Z.eqb_spec bufferType 1) as [-> |];
      [intros H; injection H as <-; auto |].
    destruct (Z.eqb_spec bufferType 3) as [-> |];
      [intros H; injection H as <-; auto |].
    destruct (Z.eqb_spec bufferType 4) as [-> |];
      [intros H; injection H as <-; auto |].
    discriminate.
  - intros [H | [-> [-> _]]]; [| reflexivity].
    destruct frameType; try discriminate; injection H as <-; reflexivity.
Qed.

(** ** The close reason *)

Lemma c_str_bytes_stored (reason : list byte) (n : nat) :
  (List.length (c_str_bytes reason) < n)%nat ->
  c_str_bytes (firstn n reason ++ repeat x00 (n - List.length reason))
  = c_str_bytes reason.
Proof.
  revert n. induction reason as [| b reason IH]; intros n Hn.
  - destruct n as [| n]; [cbn in Hn; lia |]. reflexivity.
  - destruct n as [| n]; [lia |].
    cbn [firstn app c_str_bytes List.length Nat.sub] in *.
    destruct (Byte.eqb b x00); [reflexivity |].
    cbn [List.length] in Hn. rewrite IH by lia. reflexivity.
Qed.

Lemma skipn_repeat_zero (k m : nat) :
  skipn k (repeat x00 m) = repeat x00 (m - k).
Proof.
  revert m. induction k as [| k IH]; intros m.
  - rewrite Nat.sub_0_r. reflexivity.
  - destruct m as [| m]; [reflexivity |]. cbn. apply IH.
Qed.

(** X13: when the close-status query succeeds, what
    [GetCloseSocketInformation] returns is the status the native call left
    and, as the reason, the bytes of the reason buffer before the first NUL
    (fewer than the 123 the buffer holds); the reason length the native call
    reported is not used. *)
Theorem GetCloseSocketInformation_reason_up_to_NUL
    (context : Context) (self : WinHttpWebSocketTransport) (w : World) :
  IsCancelled context w = false ->
  query_err (fst (native_query self w)) = 0 ->
  (List.length (c_str_bytes (query_reason (fst (native_query self w)))) < 123)%nat ->
  outcome (GetCloseSocketInformation context self w)
  = Returned (query_status (fst (native_query self w)),
              string_of_list_byte
                (c_str_bytes (query_reason (fst (native_query self w))))).
Proof.
  intros Hc He Hlen.
  rewrite (GetCloseSocketInformation_queried _ _ _ Hc). cbn [outcome].
  cbv zeta. rewrite He. cbn [Z.eqb].
  unfold close_reason, store. rewrite repeat_length, skipn_repeat_zero.
  change (Z.to_nat WINHTTP_WEB_SOCKET_MAX_CLOSE_REASON_LENGTH) with 123%nat.
  rewrite (c_str_bytes_stored _ 123 Hlen). reflexivity.
Qed.

(** ** Mutexes *)

(** X14: on every path, also the throwing ones, [SendFrame] makes its
    native send holding the send mutex only, [ReceiveFrame] and
    [GetCloseSocketInformation] make their native call holding the receive
    mutex only, [CloseSocket] makes the native close holding no mutex and
    its query holding the receive mutex only, and each of them holds no
    mutex when it ends. *)
Theorem native_calls_under_their_mutex
    (frameType : WebSocketFrameType) (frameData : list byte)
    (status : uint16_t) (disconnectReason : string) (context : Context)
    (self : WinHttpWebSocketTransport) (w : World) :
  locks_as_expected (events (SendFrame frameType frameData context self w)) = true /\
  locks_as_expected (events (ReceiveFrame context self w)) = true /\
  locks_as_expected (events (GetCloseSocketInformation context self w)) = true /\
  locks_as_expected
    (events (CloseSocket status disconnectReason context self w)) = true.
Proof.
  destruct (IsCancelled context w) eqn:Hc.
  - rewrite (SendFrame_cancelled _ _ _ _ _ Hc), (ReceiveFrame_cancelled _ _ _ Hc),
      (GetCloseSocketInformation_cancelled _ _ _ Hc),
      (CloseSocket_cancelled _ _ _ _ _ Hc).
    repeat split.
  - rewrite (ReceiveFrame_received _ _ _ Hc),
      (GetCloseSocketInformation_queried _ _ _ Hc).
    split; [| split; [reflexivity | split; [reflexivity |]]].
    + destruct (SendFrame_bufferType frameType) as [b |] eqn:Hb.
      * rewrite (SendFrame_sent _ _ _ _ _ _ Hc Hb). reflexivity.
      * rewrite (SendFrame_unknown _ _ _ _ _ Hc Hb). reflexivity.
    + destruct (native_close status disconnectReason self w) as [err w1] eqn:Hclose.
      destruct (Z.eq_dec err 0) as [-> | He].
      2:{ assert (He' : fst (native_close status disconnectReason self w) <> 0)
            by (rewrite Hclose; exact He).
          rewrite (CloseSocket_close_failed _ _ _ _ _ Hc He'). reflexivity. }
      destruct (IsCancelled context w1) eqn:Hc1.
      * rewrite (CloseSocket_cancelled_after_close _ _ _ _ _ _ Hc Hclose Hc1).
        reflexivity.
      * rewrite (CloseSocket_closed _ _ _ _ _ _ Hc Hclose Hc1). reflexivity.
Qed.

(** ** How many native calls a member function makes *)

(** X15: [SendFrame], [ReceiveFrame] and [GetCloseSocketInformation] make at
    most one native I/O call, and [CloseSocket] at most two: nothing is
    retried, whatever the native layer reports. *)
Theorem native_io_call_counts
    (frameType : WebSocketFrameType) (frameData : list byte)
    (status : uint16_t) (disconnectReason : string) (context : Context)
    (self : WinHttpWebSocketTransport) (w : World) :
  (List.length (filter isNativeIO
                  (events (SendFrame frameType frameData context self w)))
   <= 1)%nat /\
  (List.length (filter isNativeIO (events (ReceiveFrame context self w)))
   <= 1)%nat /\
  (List.length (filter isNativeIO
                  (events (GetCloseSocketInformation context self w)))
   <= 1)%nat /\
  (List.length (filter isNativeIO
                  (events (CloseSocket status disconnectReason context self w)))
   <= 2)%nat.
Proof.
  destruct (IsCancelled context w) eqn:Hc.
  - rewrite (SendFrame_cancelled _ _ _ _ _ Hc), (ReceiveFrame_cancelled _ _ _ Hc),
      (GetCloseSocketInformation_cancelled _ _ _ Hc),
      (CloseSocket_cancelled _ _ _ _ _ Hc).
    cbn. lia.
  - rewrite (ReceiveFrame_received _ _ _ Hc),
      (GetCloseSocketInformation_queried _ _ _ Hc).
    split; [| split; [cbn; lia | split; [cbn; lia |]]].
    + destruct (SendFrame_bufferType frameType) as [b |] eqn:Hb.
      * rewrite (SendFrame_sent _ _ _ _ _ _ Hc Hb). cbn. lia.
      * rewrite (SendFrame_unknown _ _ _ _ _ Hc Hb). cbn. lia.
    + destruct (native_close status disconnectReason self w) as [err w1] eqn:Hclose.
      destruct (Z.eq_dec err 0) as [-> | He].
      2:{ assert (He' : fst (native_close status disconnectReason self w) <> 0)
            by (rewrite Hclose; exact He).
          rewrite (CloseSocket_close_failed _ _ _ _ _ Hc He'). cbn. lia. }
      destruct (IsCancelled context w1) eqn:Hc1.
      * rewrite (CloseSocket_cancelled_after_close _ _ _ _ _ _ Hc Hclose Hc1).
        cbn. lia.
      * rewrite (CloseSocket_closed _ _ _ _ _ _ Hc Hclose Hc1). cbn. lia.
Qed.



End Properties.

(** ** Runs on the scripted world *)

Lemma CloseSocket_succeeds_iff_status_echoed_witness :
  outcome (CloseSocket 1000 "bye" ApplicationContext Sim.open_channel Sim.quiet)
  = Returned tt <-> 1000 = 1000.
Proof.
  refine (proj1 (CloseSocket_succeeds_iff_status_echoed
                   1000 "bye" ApplicationContext Sim.open_channel Sim.quiet
                   (Sim.blocked Sim.quiet) (Sim.blocked (Sim.blocked Sim.quiet))
                   {| query_err := 0; query_status := 1000; query_reason := [];
                      query_reasonLength := 0 |}
                   _ _ _ _ _));
    vm_compute; reflexivity.
Defined.

Lemma cancelled_context_fails_before_native_io_witness :
  EffectiveDeadlinePassed (Sim.deadline_at 99) Sim.quiet = true /\
  fails_at_first_check Sim.open_channel Sim.quiet
    (SendFrame FrameTypeText [x01] (Sim.deadline_at 99) Sim.open_channel Sim.quiet) /\
  fails_at_first_check Sim.open_channel Sim.quiet
    (ReceiveFrame (Sim.deadline_at 99) Sim.open_channel Sim.quiet) /\
  fails_at_first_check Sim.open_channel Sim.quiet
    (CloseSocket 1000 "bye" (Sim.deadline_at 99) Sim.open_channel Sim.quiet).
Proof.
  split; [reflexivity |].
  apply cancelled_context_fails_before_native_io. left. reflexivity.
Defined.

Lemma ReceiveFrame_length_is_bytes_read_witness :
  List.length [x01; x02] =
  Z.to_nat (recv_bytesRead
              (fst (native_receive Sim.open_channel
                      (Sim.after_send FrameTypeText [x01; x02])))).
Proof.
  apply (ReceiveFrame_length_is_bytes_read ApplicationContext Sim.open_channel
           (Sim.after_send FrameTypeText [x01; x02]) FrameTypeText [x01; x02]).
  vm_compute. reflexivity.
Defined.

Lemma ReceiveFrame_insufficient_buffer_is_not_an_error_witness :
  outcome (ReceiveFrame ApplicationContext Sim.open_channel
             (Sim.after_send FrameTypeText Sim.long_payload))
  = Returned (FrameTypeText, firstn 128 Sim.long_payload).
Proof.
  refine (proj1 (proj2 (ReceiveFrame_insufficient_buffer_is_not_an_error
                          ApplicationContext Sim.open_channel
                          (Sim.after_send FrameTypeText Sim.long_payload)
                          _ _)));
    vm_compute; reflexivity.
Defined.

Lemma frame_type_translation_rejects_exactly_unknown_witness :
  outcome (SendFrame FrameTypeClosed [x01] ApplicationContext Sim.open_channel
             Sim.quiet)
  = Thrown (runtime_error "Unknown frame type.") /\
  existsb touchesNative
    (events (SendFrame FrameTypeClosed [x01] ApplicationContext Sim.open_channel
               Sim.quiet)) = false.
Proof.
  refine (proj1 (proj2 (frame_type_translation_rejects_exactly_unknown
                          FrameTypeClosed [x01] ApplicationContext
                          Sim.open_channel Sim.quiet
                          ApplicationContext Sim.open_channel
                          (Sim.after_send FrameTypeText [x01; x02])
                          _ _ _)) _); try (vm_compute; reflexivity).
  unfold sendable. cbn [In]. intros [E | [E | [E | [E | []]]]]; discriminate.
Defined.

Lemma Close_releases_handle_once_witness :
  events (Close Sim.open_channel Sim.quiet) = [EvWinHttpCloseHandle 7] /\
  (releases
     (events (calls [CallClose; CallSendFrame FrameTypeText [x01] ApplicationContext;
                     CallClose]
                Sim.open_channel Sim.quiet)) <= 1)%nat.
Proof.
  assert (H : m_socketHandle Sim.open_channel <> NULL) by discriminate.
  split.
  - exact (proj1 (proj2 (Close_releases_handle_once Sim.open_channel Sim.quiet
                           [] [] H))).
  - exact (proj2 (proj2 (proj2
             (Close_releases_handle_once Sim.open_channel Sim.quiet []
                [CallClose; CallSendFrame FrameTypeText [x01] ApplicationContext;
                 CallClose] H)))).
Defined.

(** ** Where the specification and the source differ, at concrete inputs *)

(** C3 as stated fails: after [Close], [SendFrame] does reach the native
    send, with the null handle, and the error is the native layer's. *)
Lemma SendFrame_after_Close_reaches_native :
  m_socketHandle (self' Sim.after_Close) = NULL /\
  events (SendFrame FrameTypeText [x01] ApplicationContext
            (self' Sim.after_Close) (world' Sim.after_Close))
  = [EvThrowIfCancelled; EvLock m_sendMutex;
     EvWinHttpWebSocketSend NULL WINHTTP_WEB_SOCKET_UTF8_MESSAGE_BUFFER_TYPE
       [x01] 1;
     EvUnlock m_sendMutex] /\
  existsb isNativeIO
    (events (SendFrame FrameTypeText [x01] ApplicationContext
               (self' Sim.after_Close) (world' Sim.after_Close))) = true /\
  outcome (SendFrame FrameTypeText [x01] ApplicationContext
             (self' Sim.after_Close) (world' Sim.after_Close))
  = Thrown (TransportException "WinHttpWebSocketSend() failed"
              Sim.ERROR_INVALID_HANDLE).
Proof. vm_compute. repeat split. Qed.

Lemma closed_channel_calls_pass_null_handle_witness :
  events (ReceiveFrame ApplicationContext
            (self' Sim.after_Close) (world' Sim.after_Close))
  = [EvThrowIfCancelled; EvLock m_receiveMutex;
     EvWinHttpWebSocketReceive NULL 128; EvUnlock m_receiveMutex].
Proof.
  refine (proj1 (proj2 (proj2 (proj2
            (closed_channel_calls_pass_null_handle Sim.open_channel Sim.quiet
               FrameTypeText WINHTTP_WEB_SOCKET_UTF8_MESSAGE_BUFFER_TYPE [x01]
               ApplicationContext _ _)))));
    vm_compute; reflexivity.
Defined.

(** C2 as stated fails: the context passes the entry check of [SendFrame],
    is cancelled while the native send blocks, and [SendFrame] returns
    normally; no check follows the native send. *)
Lemma cancellation_during_native_send_unobserved :
  IsCancelled Sim.cancellable Sim.cancel_lands_during_io = false /\
  IsCancelled Sim.cancellable
    (world' (SendFrame FrameTypeText [x01; x02] Sim.cancellable
               Sim.open_channel Sim.cancel_lands_during_io)) = true /\
  outcome (SendFrame FrameTypeText [x01; x02] Sim.cancellable
             Sim.open_channel Sim.cancel_lands_during_io) = Returned tt /\
  checkedAfter
    (io_steps (events (SendFrame FrameTypeText [x01; x02] Sim.cancellable
                         Sim.open_channel Sim.cancel_lands_during_io))) = false.
Proof. vm_compute. repeat split. Qed.

Lemma native_io_checked_before_never_after_witness :
  outcome (SendFrame FrameTypeText [x01; x02] Sim.cancellable
             Sim.open_channel Sim.cancel_lands_during_io)
  <> Thrown OperationCancelledException.
Proof.
  refine (proj1 (proj2 (proj2 (proj2
            (native_io_checked_before_never_after FrameTypeText [x01; x02]
               Sim.cancellable Sim.open_channel Sim.cancel_lands_during_io))) _)).
  vm_compute. reflexivity.
Defined.

(** C9 as stated fails: with ERROR_INSUFFICIENT_BUFFER reported,
    [ReceiveFrame] throws when the wire type reported is unknown, and
    returns 130 bytes, two of them zeros it appended, when the byte count
    reported is 130. *)
Lemma insufficient_buffer_may_throw_or_exceed_128 :
  recv_err (fst (native_receive Replay.open Replay.insufficient_unknown_type))
  = ERROR_INSUFFICIENT_BUFFER /\
  outcome (ReceiveFrame ApplicationContext Replay.open
             Replay.insufficient_unknown_type)
  = Thrown (runtime_error "Unknown frame type.") /\
  recv_err (fst (native_receive Replay.open Replay.insufficient_full_count))
  = ERROR_INSUFFICIENT_BUFFER /\
  outcome (ReceiveFrame ApplicationContext Replay.open
             Replay.insufficient_full_count)
  = Returned (FrameTypeText, repeat x01 128 ++ [x00; x00]) /\
  (128 < List.length (repeat x01 128 ++ [x00; x00]))%nat.
Proof. vm_compute. repeat split; lia. Qed.

(** C4 as stated fails: a Text frame of 129 bytes, sent and then received
    on the mirrored stream, comes back as its first 128 bytes. *)
Lemma long_frame_round_trip_fails :
  In FrameTypeText sendable /\
  outcome (ReceiveFrame ApplicationContext Sim.open_channel
             (Sim.after_send FrameTypeText Sim.long_payload))
  = Returned (FrameTypeText, firstn 128 Sim.long_payload) /\
  outcome (ReceiveFrame ApplicationContext Sim.open_channel
             (Sim.after_send FrameTypeText Sim.long_payload))
  <> Returned (FrameTypeText, Sim.long_payload).
Proof.
  split; [left; reflexivity |].
  assert (E : outcome (ReceiveFrame ApplicationContext Sim.open_channel
                         (Sim.after_send FrameTypeText Sim.long_payload))
              = Returned (FrameTypeText, firstn 128 Sim.long_payload))
    by (vm_compute; reflexivity).
  split; [exact E |].
  rewrite E. intros H. injection H as H.
  apply (f_equal (@List.length byte)) in H. vm_compute in H. discriminate.
Qed.

Lemma frame_round_trip_within_staging_buffer_witness :
  outcome (ReceiveFrame ApplicationContext Sim.open_channel
             (Sim.after_send FrameTypeText [x01; x02]))
  = Returned (FrameTypeText, [x01; x02]).
Proof.
  assert (Hin : In FrameTypeText sendable) by (left; reflexivity).
  assert (Hlen : (List.length [x01; x02] <= 128)%nat) by (cbn; lia).
  destruct (frame_round_trip_within_staging_buffer FrameTypeText [x01; x02]
              ApplicationContext Sim.open_channel Sim.quiet
              ApplicationContext Sim.open_channel
              (Sim.after_send FrameTypeText [x01; x02])
              Hin Hlen eq_refl eq_refl)
    as [b [Hb [_ [_ Hround]]]].
  apply Hround. injection Hb as <-. vm_compute. repeat split.
Defined.

(** ** The mirrored stream, end to end *)

(** On the scripted world, where the native receive hands back what the
    native send was given, a sendable frame of at most 128 bytes sent on an
    open channel is received as it was sent. *)
Lemma mirrored_stream_round_trip
    (frameType : WebSocketFrameType) (payload : list byte) :
  In frameType sendable ->
  (List.length payload <= 128)%nat ->
  outcome (ReceiveFrame ApplicationContext Sim.open_channel
             (Sim.after_send frameType payload))
  = Returned (frameType, payload).
Proof.
  intros Hin Hlen.
  destruct (sendable_bufferType frameType Hin)
    as [b [Hb Hr]].
  assert (Hw : Sim.after_send frameType payload
               = Sim.set_wire [(b, payload)] (Sim.blocked Sim.quiet)).
  { unfold Sim.after_send.
    rewrite (SendFrame_sent frameType payload ApplicationContext
               Sim.open_channel Sim.quiet b eq_refl Hb).
    cbn [world']. unfold native_send. cbn [WinHttpWebSocketSend Sim.platform].
    unfold Sim.send. cbn [m_socketHandle Sim.open_channel].
    change (7 =? NULL) with false. cbn [snd Sim.wire Sim.quiet app].
    unfold to_DWORD. rewrite Z.mod_small by lia.
    rewrite Nat2Z.id, firstn_all. reflexivity. }
  rewrite Hw.
  rewrite (ReceiveFrame_received ApplicationContext Sim.open_channel _ eq_refl).
  cbn [outcome].
  assert (Hd : delivers
                 (fst (native_receive Sim.open_channel
                         (Sim.set_wire [(b, payload)] (Sim.blocked Sim.quiet))))
                 b payload).
  { unfold native_receive. cbn [WinHttpWebSocketReceive Sim.platform].
    unfold Sim.receive. cbn [m_socketHandle Sim.open_channel].
    change (7 =? NULL) with false. cbn [Sim.wire Sim.set_wire fst].
    assert (Hfit : (Z.of_nat (List.length payload) <=? 128) = true)
      by (apply Z.leb_le; lia).
    rewrite Hfit.
    change (Z.to_nat 128) with 128%nat.
    rewrite (firstn_all2 payload) by lia.
    repeat split. }
  destruct Hd as [Herr [Hstored [Hn Htype]]].
  unfold receive_failed. rewrite Herr, Htype, Hr. cbn [Z.eqb negb andb].
  rewrite (received_buffer_delivered _ payload Hstored Hn Hlen). reflexivity.
Qed.

(** The spec's example of the close handshake: a peer that echoes 1001 to
    a close sent with status 1000. *)
Example CloseSocket_1000_echoed_1001 :
  outcome (CloseSocket 1000 "bye" ApplicationContext Sim.open_channel
             (Sim.with_peer_close_status 1001 Sim.quiet))
  = Thrown (runtime_error "Close status mismatch, got 1001 expected 1000").
Proof. vm_compute. reflexivity. Qed.

(** Over a lifetime with two calls of [Close], the handle is released once. *)
Example two_Closes_release_once :
  filter isRelease
    (events (calls [CallSendFrame FrameTypeText [x01] ApplicationContext;
                    CallClose; CallReceiveFrame ApplicationContext; CallClose]
               Sim.open_channel Sim.quiet))
  = [EvWinHttpCloseHandle 7].
Proof. vm_compute. reflexivity. Qed.

(** ** Runs on the replaying world *)

Lemma CloseSocket_close_failure_skips_query_witness :
  outcome (CloseSocket 1000 "bye" ApplicationContext Replay.open
             (Replay.with_close 6 Replay.fine))
  = Thrown (TransportException "WinHttpWebSocketClose() failed" 6).
Proof.
  refine (proj1 (CloseSocket_close_failure_skips_query 1000 "bye"
                   ApplicationContext Replay.open
                   (Replay.with_close 6 Replay.fine) _ _)).
  - vm_compute. reflexivity.
  - vm_compute. discriminate.
Defined.

Lemma CloseSocket_cancelled_between_close_and_query_witness :
  outcome (CloseSocket 1000 "bye" Replay.context Replay.open
             (Replay.with_cancel_after_io Replay.fine))
  = Thrown OperationCancelledException /\
  events (CloseSocket 1000 "bye" Replay.context Replay.open
            (Replay.with_cancel_after_io Replay.fine))
  = [EvThrowIfCancelled; EvWinHttpWebSocketClose 5 1000 (Some "bye"%string) 3;
     EvThrowIfCancelled].
Proof.
  assert (H1 : IsCancelled Replay.context
                 (Replay.with_cancel_after_io Replay.fine) = false)
    by (vm_compute; reflexivity).
  assert (H2 : native_close 1000 "bye" Replay.open
                 (Replay.with_cancel_after_io Replay.fine)
               = (0, Replay.after_io (Replay.with_cancel_after_io Replay.fine)))
    by (vm_compute; reflexivity).
  assert (H3 : IsCancelled Replay.context
                 (Replay.after_io (Replay.with_cancel_after_io Replay.fine))
               = true)
    by (vm_compute; reflexivity).
  destruct (CloseSocket_cancelled_between_close_and_query 1000 "bye"
              Replay.context Replay.open
              (Replay.with_cancel_after_io Replay.fine)
              (Replay.after_io (Replay.with_cancel_after_io Replay.fine))
              H1 H2 H3) as [Ho [Hev _]].
  split; [exact Ho | exact Hev].
Defined.

Lemma CloseSocket_query_failure_witness :
  outcome (CloseSocket 1000 "bye" ApplicationContext Replay.open
             (Replay.with_query
                {| query_err := 6; query_status := 1000; query_reason := [];
                   query_reasonLength := 0 |} Replay.fine))
  = Thrown (TransportException "WinHttpGetCloseStatus() failed" 6).
Proof.
  refine (proj1 (CloseSocket_query_failure 1000 "bye" ApplicationContext
                   Replay.open
                   (Replay.with_query
                      {| query_err := 6; query_status := 1000;
                         query_reason := []; query_reasonLength := 0 |}
                      Replay.fine)
                   (Replay.after_io
                      (Replay.with_query
                         {| query_err := 6; query_status := 1000;
                            query_reason := []; query_reasonLength := 0 |}
                         Replay.fine))
                   _ _ _ _)); vm_compute; try reflexivity.
  discriminate.
Defined.

Lemma OnResponseReceived_stores_upgraded_handle_witness :
  outcome (OnResponseReceived 3 Replay.fresh Replay.fine) = Returned tt /\
  m_socketHandle (self' (OnResponseReceived 3 Replay.fresh Replay.fine)) = 9 /\
  events (OnResponseReceived 3 Replay.fresh Replay.fine)
  = [EvWinHttpWebSocketCompleteUpgrade 3].
Proof.
  assert (H : fst (WinHttpWebSocketCompleteUpgrade 3 Replay.fine) <> NULL)
    by (vm_compute; discriminate).
  destruct (OnResponseReceived_stores_upgraded_handle 3 Replay.fresh Replay.fine H)
    as [Ho [Hh [Hev _]]].
  split; [exact Ho | split; [exact Hh | exact Hev]].
Defined.

Lemma OnResponseReceived_failure_leaves_no_handle_witness :
  outcome (OnResponseReceived 3 Replay.open (Replay.with_upgrade NULL 12 Replay.fine))
  = Thrown (TransportException
              "Error Upgrading HttpRequest handle to WebSocket handle." 12) /\
  m_socketHandle
    (self' (OnResponseReceived 3 Replay.open
              (Replay.with_upgrade NULL 12 Replay.fine))) = NULL /\
  events (OnResponseReceived 3 Replay.open (Replay.with_upgrade NULL 12 Replay.fine))
  = [EvWinHttpWebSocketCompleteUpgrade 3; EvWinHttpCloseHandle 5].
Proof.
  assert (H : fst (WinHttpWebSocketCompleteUpgrade 3
                      (Replay.with_upgrade NULL 12 Replay.fine)) = NULL)
    by (vm_compute; reflexivity).
  destruct (OnResponseReceived_failure_leaves_no_handle 3 Replay.open
              (Replay.with_upgrade NULL 12 Replay.fine) H)
    as [Ho [Hh [Hev _]]].
  split; [exact Ho | split; [exact Hh | exact Hev]].
Defined.

Lemma ReceiveFrame_bytes_are_stored_or_zero_witness :
  nth 0 [x68; x69] x00 = x68.
Proof.
  refine (ReceiveFrame_bytes_are_stored_or_zero ApplicationContext Replay.open
            Replay.fine FrameTypeText [x68; x69] 0 _).
  vm_compute. reflexivity.
Defined.

Lemma GetCloseSocketInformation_reason_up_to_NUL_witness :
  outcome (GetCloseSocketInformation ApplicationContext Replay.open Replay.fine)
  = Returned (1000, "bye"%string).
Proof.
  refine (GetCloseSocketInformation_reason_up_to_NUL ApplicationContext
            Replay.open Replay.fine _ _ _); vm_compute; try reflexivity.
  lia.
Defined.

(** A reason with a NUL inside comes back cut there, whatever length the
    native call reported. *)
Example close_reason_cut_at_NUL :
  outcome (GetCloseSocketInformation ApplicationContext Replay.open
             (Replay.with_query
                {| query_err := 0; query_status := 1001;
                   query_reason := [x62; x79; x00; x65];
                   query_reasonLength := 4 |} Replay.fine))
  = Returned (1001, "by"%string).
Proof. vm_compute. reflexivity. Qed.

(** A byte count beyond what was stored is filled up with zero bytes. *)
Example ReceiveFrame_grows_with_zeros :
  outcome (ReceiveFrame ApplicationContext Replay.open
             (Replay.with_receive
                {| recv_err := 0; recv_stored := [x68; x69];
                   recv_bytesRead := 4;
                   recv_bufferType :=
                     WINHTTP_WEB_SOCKET_BINARY_MESSAGE_BUFFER_TYPE |}
                Replay.fine))
  = Returned (FrameTypeBinary, [x68; x69; x00; x00]).
Proof. vm_compute. reflexivity. Qed.

(** An upgrade over a stored handle, then two calls of [Close]: the handle
    replaced and the new handle are closed, once each, and none is stored. *)
Example lifetime_with_upgrades :
  filter isRelease
    (events (lifetime [CallOnResponseReceived 3; CallMember CallClose;
                       CallMember CallClose]
               Replay.open Replay.fine))
  = [EvWinHttpCloseHandle 5; EvWinHttpCloseHandle 9] /\
  holds (self' (lifetime [CallOnResponseReceived 3; CallMember CallClose;
                          CallMember CallClose]
                  Replay.open Replay.fine)) = 0%nat.
Proof. vm_compute. split; reflexivity. Qed.
